(** * mibuild / Xilinx ISE back end: a shallow embedding of [mibuild/xilinx_ise.py]

    The Python module renders the UCF constraint file, the XST project and
    option files and a shell script, runs the script, and offers two clock
    generators.  Pure text rendering is embedded as functions into an
    exception-carrying [result]; code that touches the process (working
    directory, files, subprocesses) runs in a state-and-exception monad over
    a [World] that records what was done.  Python strings are byte strings
    ([string]); Python integers are [Z]. *)

From Stdlib Require Import String Ascii List ZArith Lia Bool DecimalString.
From Stdlib Require Import DecimalZ OrderedTypeEx Permutation.
Import ListNotations.
Open Scope string_scope.

(** ** Python exceptions and the two monads *)

Inductive Exn : Type :=
| IndexError                      (* sequence index out of range *)
| ValueError                      (* max() of an empty sequence *)
| OSError (msg : string)          (* raised by the module itself *)
| IOError (file : string)         (* a file could not be written *)
| ConstraintError (name : string) (* platform.request found no resource *)
| Raised (what : string).         (* anything a collaborator raises *)

Inductive result (A : Type) : Type :=
| Ok (a : A)
| Raise (e : Exn).
Arguments Ok {A} a.
Arguments Raise {A} e.

Class Monad (m : Type -> Type) : Type := {
  ret : forall {A}, A -> m A;
  bind : forall {A B}, m A -> (A -> m B) -> m B
}.

Notation "x <- c1 ;; c2" := (bind c1 (fun x => c2))
  (at level 61, c1 at next level, right associativity).
Notation "' pat <- c1 ;; c2" := (bind c1 (fun x => match x with pat => c2 end))
  (at level 61, pat pattern, c1 at next level, right associativity).
Notation "c1 ;;; c2" := (bind c1 (fun _ => c2))
  (at level 61, right associativity).

#[export] Instance result_monad : Monad result := {
  ret := fun A a => Ok a;
  bind := fun A B c k => match c with Ok a => k a | Raise e => Raise e end
}.

(** ** Python built-ins used by the module *)

Module Py.

Definition nl : string := String "010"%char EmptyString.
Definition dquote : string := String "034"%char EmptyString.

(** [str(n)] for an integer. *)
Definition str (n : Z) : string := NilZero.string_of_int (Z.to_int n).

(** [sep.join(l)] *)
Definition join (sep : string) (l : list string) : string := String.concat sep l.

(** [l[i]]: out of range raises IndexError (non-negative indices only). *)
Definition index {A} (l : list A) (i : nat) : result A :=
  match nth_error l i with
  | Some a => Ok a
  | None => Raise IndexError
  end.

(** [a > b] on strings: lexicographic on the characters' codes. *)
Definition str_gt (a b : string) : bool :=
  match String.compare a b with Gt => true | _ => false end.

(** [max(l)] on a list of strings: the running maximum is replaced only
    by a strictly greater item; the empty list raises ValueError. *)
Fixpoint max_from (m : string) (l : list string) : string :=
  match l with
  | [] => m
  | x :: l' => max_from (if str_gt x m then x else m) l'
  end.

Definition max (l : list string) : result string :=
  match l with
  | [] => Raise ValueError
  | x :: l' => Ok (max_from x l')
  end.

Definition startswith (p s : string) : bool := String.prefix p s.

Fixpoint endswith_char (c : ascii) (s : string) : bool :=
  match s with
  | EmptyString => false
  | String a EmptyString => Ascii.eqb a c
  | String _ s' => endswith_char c s'
  end.

(** [os.path.join(a, b)] (posixpath). *)
Definition path_join (a b : string) : string :=
  if startswith "/" b then b
  else if orb (String.eqb a EmptyString) (endswith_char "/"%char a) then a ++ b
  else a ++ "/" ++ b.

End Py.

(** ** Constraints (mibuild.generic_platform) *)

(** Modelled from the spec: the constraint classes [Pins], [IOStandard],
    [Drive] and [Misc] are declared in [mibuild.generic_platform], which is
    not part of the sources at hand.  Each carries the attribute the
    formatter reads; a location constraint holds the pin identifiers it was
    built from.  [Unrecognized] stands for any other Python object found in
    a constraint list. *)
Inductive Constraint : Type :=
| Pins (identifiers : list string)
| IOStandard (name : string)
| Drive (strength : Z)
| Misc (misc : string)
| Unrecognized (repr : string).

(** Resource descriptor [(name, number, subsignal-or-None)]. *)
Definition ResName : Type := string * Z * option string.

(** Named signal constraint [(sig, pins, others, resname)]. *)
Definition NamedSC : Type := string * list string * list Constraint * ResName.

(** [_format_constraint]: falling off the [if]/[elif] chain returns [None]. *)
Definition _format_constraint (c : Constraint) : result (option string) :=
  match c with
  | Pins identifiers => i0 <- Py.index identifiers 0 ;; Ok (Some ("LOC=" ++ i0))
  | IOStandard name => Ok (Some ("IOSTANDARD=" ++ name))
  | Drive strength => Ok (Some ("DRIVE=" ++ Py.str strength))
  | Misc misc => Ok (Some misc)
  | Unrecognized _ => Ok None
  end.

(** The [for c in [Pins(pin)] + others] loop of [_format_ucf], with the
    accumulator [fmt_c]. *)
Fixpoint format_loop (cs : list Constraint) (fmt_c : list string)
  : result (list string) :=
  match cs with
  | [] => Ok fmt_c
  | c :: cs' =>
      fc <- _format_constraint c ;;
      format_loop cs' (match fc with
                       | Some f => fmt_c ++ [f]
                       | None => fmt_c
                       end)
  end.

Definition format_resname (resname : ResName) : string :=
  let '(name, number, sub) := resname in
  let fmt_r := name ++ ":" ++ Py.str number in
  match sub with
  | Some s => fmt_r ++ "." ++ s
  | None => fmt_r
  end.

Definition _format_ucf (signame pin : string) (others : list Constraint)
    (resname : ResName) : result string :=
  fmt_c <- format_loop (Pins [pin] :: others) [] ;;
  let fmt_r := format_resname resname in
  Ok ("NET " ++ Py.dquote ++ signame ++ Py.dquote ++ " "
        ++ Py.join " | " fmt_c ++ "; # " ++ fmt_r ++ Py.nl).

(** The inner [for i, p in enumerate(pins)] loop of [_build_ucf]. *)
Fixpoint ucf_bits (sig : string) (others : list Constraint) (resname : ResName)
    (i : nat) (pins : list string) (r : string) : result string :=
  match pins with
  | [] => Ok r
  | p :: pins' =>
      l <- _format_ucf (sig ++ "(" ++ Py.str (Z.of_nat i) ++ ")") p others resname ;;
      ucf_bits sig others resname (S i) pins' (r ++ l)
  end.

(** One iteration of the outer loop of [_build_ucf]. *)
Definition ucf_entry (e : NamedSC) (r : string) : result string :=
  let '(sig, pins, others, resname) := e in
  if (1 <? length pins)%nat then ucf_bits sig others resname 0 pins r
  else
    p0 <- Py.index pins 0 ;;
    l <- _format_ucf sig p0 others resname ;;
    Ok (r ++ l).

Fixpoint ucf_loop (named_sc : list NamedSC) (r : string) : result string :=
  match named_sc with
  | [] => Ok r
  | e :: rest => r' <- ucf_entry e r ;; ucf_loop rest r'
  end.

Definition _build_ucf (named_sc : list NamedSC) (named_pc : list string)
  : result string :=
  r <- ucf_loop named_sc EmptyString ;;
  match named_pc with
  | [] => Ok r
  | _ :: _ => Ok (r ++ Py.nl ++ Py.join (Py.nl ++ Py.nl) named_pc)
  end.

(** The project-file loop of [_build_files]. *)
Fixpoint prj_loop (sources : list (string * string)) (prj_contents : string)
  : string :=
  match sources with
  | [] => prj_contents
  | (filename, language) :: rest =>
      prj_loop rest (prj_contents ++ language ++ " work " ++ filename ++ Py.nl)
  end.

Definition xst_contents (build_name device : string) : string :=
  "run" ++ Py.nl ++
  "-ifn " ++ build_name ++ ".prj" ++ Py.nl ++
  "-top top" ++ Py.nl ++
  "-ifmt MIXED" ++ Py.nl ++
  "-opt_mode SPEED" ++ Py.nl ++
  "-reduce_control_sets auto" ++ Py.nl ++
  "-register_balancing yes" ++ Py.nl ++
  "-ofn " ++ build_name ++ ".ngc" ++ Py.nl ++
  "-p " ++ device.

(** ** The process: working directory, files written, subprocesses run *)

(** What the module does to its surroundings, in the order it happens.  Each
    event records the working directory it happened in. *)
Inductive Event : Type :=
| Mkdir (at_cwd : list string) (dir : string)
| WriteFile (at_cwd : list string) (name contents : string)
| Spawn (at_cwd : list string) (argv : list string).

(** The working directory is an absolute path, kept as its components. *)
Record World : Type := mkWorld {
  cwd : list string;
  trace : list Event
}.

(** What the surroundings answer.  The module asks each question at most
    once per argument during a build, so the answers are functions of the
    working directory and the argument. *)
Record Host : Type := mkHost {
  sys_platform : string;                                 (* sys.platform *)
  calcsize_P : Z;                                        (* struct.calcsize("P") *)
  listdir : list string -> string -> result (list string);  (* os.listdir *)
  isdir : list string -> string -> bool;                 (* os.path.isdir *)
  Decimal_accepts : string -> bool;                      (* Decimal(v) does not raise *)
  write_fault : list string -> string -> bool;           (* opening the file for writing fails *)
  subprocess_call : list string -> list string -> result Z  (* subprocess.call: exit status *)
}.

(** State and exceptions: a raised exception keeps the state reached. *)
Definition ST (S A : Type) : Type := S -> result A * S.

#[export] Instance ST_monad (S : Type) : Monad (ST S) := {
  ret := fun A a s => (Ok a, s);
  bind := fun A B c k s =>
            match c s with
            | (Ok a, s') => k a s'
            | (Raise e, s') => (Raise e, s')
            end
}.

Definition raise {S A} (e : Exn) : ST S A := fun s => (Raise e, s).

Definition lift {S A} (r : result A) : ST S A := fun s => (r, s).

Abbreviation IO := (ST World).

Definition getcwd : IO (list string) := fun w => (Ok (cwd w), w).

Definition emit (ev : Event) : IO unit :=
  fun w => (Ok tt, mkWorld (cwd w) (trace w ++ [ev])).

(** Path components between slashes. *)
Fixpoint split_slash (s cur : string) : list string :=
  match s with
  | EmptyString => [cur]
  | String c s' =>
      if Ascii.eqb c "/"%char then cur :: split_slash s' EmptyString
      else split_slash s' (cur ++ String c EmptyString)
  end.

Definition walk (from : list string) (comp : string) : list string :=
  if orb (String.eqb comp EmptyString) (String.eqb comp ".") then from
  else if String.eqb comp ".." then removelast from
  else from ++ [comp].

(** Where a path leads from a working directory. *)
Definition resolve (from : list string) (path : string) : list string :=
  fold_left walk (split_slash path EmptyString)
            (if Py.startswith "/" path then [] else from).

(** [os.chdir(path)].  Symbolic links and missing directories are outside
    the model: a non-empty path always resolves. *)
Definition chdir (path : string) : IO unit :=
  fun w =>
    if String.eqb path EmptyString then (Raise (Raised "FileNotFoundError"), w)
    else (Ok tt, mkWorld (resolve (cwd w) path) (trace w)).

Section Process.

Variable host : Host.

(** Modelled from the spec: [tools.mkdir_noerror] and [tools.write_to_file]
    live in [mibuild.tools], which is not part of the sources at hand.  The
    first makes sure a directory exists and swallows the error when it
    already does; the second writes a text file, and a failure to write is
    a fatal I/O error. *)
Definition mkdir_noerror (dir : string) : IO unit :=
  d <- getcwd ;; emit (Mkdir d dir).

Definition write_to_file (filename contents : string) : IO unit :=
  d <- getcwd ;;
  if write_fault host d filename then raise (IOError filename)
  else emit (WriteFile d filename contents).

Definition _build_files (device : string) (sources : list (string * string))
    (named_sc : list NamedSC) (named_pc : list string) (build_name : string)
  : IO unit :=
  ucf <- lift (_build_ucf named_sc named_pc) ;;
  write_to_file (build_name ++ ".ucf") ucf ;;;
  let prj_contents := prj_loop sources EmptyString in
  write_to_file (build_name ++ ".prj") prj_contents ;;;
  write_to_file (build_name ++ ".xst") (xst_contents build_name device).

(** [_is_valid_version]: the bare [except] turns a failed [Decimal(v)]
    into [False]. *)
Definition _is_valid_version (d : list string) (path v : string) : bool :=
  if Decimal_accepts host v then isdir host d (Py.path_join path v)
  else false.

Definition script_header : string :=
  "# Autogenerated by mibuild" ++ Py.nl ++ "set -e" ++ Py.nl.

Definition script_pipeline (build_name : string) : string :=
  Py.nl ++
  "xst -ifn " ++ build_name ++ ".xst" ++ Py.nl ++
  "ngdbuild -uc " ++ build_name ++ ".ucf " ++ build_name ++ ".ngc "
    ++ build_name ++ ".ngd" ++ Py.nl ++
  "map -ol high -w -o " ++ build_name ++ "_map.ncd " ++ build_name ++ ".ngd "
    ++ build_name ++ ".pcf" ++ Py.nl ++
  "par -ol high -w " ++ build_name ++ "_map.ncd " ++ build_name ++ ".ncd "
    ++ build_name ++ ".pcf" ++ Py.nl ++
  "bitgen -g LCK_cycle:6 -g Binary:Yes -w " ++ build_name ++ ".ncd "
    ++ build_name ++ ".bit" ++ Py.nl.

(** The [if source:] block of [_run_ise]: the chosen version directory. *)
Definition select_version (ise_path : string) : IO string :=
  d <- getcwd ;;
  names <- lift (listdir host d ise_path) ;;
  let vers := filter (_is_valid_version d ise_path) names in
  lift (Py.max vers).

Definition settings_file (ise_path tools_version : string) : string :=
  let bits := (calcsize_P host * 8)%Z in
  ise_path ++ "/" ++ tools_version ++ "/ISE_DS/settings" ++ Py.str bits ++ ".sh".

Definition _run_ise (build_name ise_path : string) (source : bool) : IO unit :=
  let source :=
    if orb (String.eqb (sys_platform host) "win32")
           (String.eqb (sys_platform host) "cygwin")
    then false else source in
  let build_script_contents := script_header in
  build_script_contents <-
    (if source then
       tools_version <- select_version ise_path ;;
       let xilinx_settings_file := settings_file ise_path tools_version in
       ret (build_script_contents ++ "source " ++ xilinx_settings_file ++ Py.nl)
     else ret build_script_contents) ;;
  let build_script_contents := build_script_contents ++ script_pipeline build_name in
  let build_script_file := "build_" ++ build_name ++ ".sh" in
  write_to_file build_script_file build_script_contents ;;;
  d <- getcwd ;;
  emit (Spawn d ["bash"; build_script_file]) ;;;
  r <- lift (subprocess_call host d ["bash"; build_script_file]) ;;
  if (r =? 0)%Z then ret tt else raise (OSError "Subprocess failed").

(** The platform object: its device, its extra sources, and what
    [get_verilog] (the elaborator of [GenericPlatform], an external
    collaborator) answers for a fragment. *)
Record Platform (Fragment : Type) : Type := mkPlatform {
  device : string;
  sources : list (string * string);
  get_verilog : Fragment -> result (string * list NamedSC * list string)
}.
Arguments device {Fragment} _.
Arguments sources {Fragment} _.
Arguments get_verilog {Fragment} _ _.

(** [XilinxISEPlatform.build] *)
Definition build {Fragment} (self : Platform Fragment) (fragment : Fragment)
    (build_dir build_name ise_path : string) (source run : bool) : IO unit :=
  mkdir_noerror build_dir ;;;
  chdir build_dir ;;;
  '(v_src, named_sc, named_pc) <- lift (get_verilog self fragment) ;;
  let v_file := build_name ++ ".v" in
  write_to_file v_file v_src ;;;
  let sources := (sources self ++ [(v_file, "verilog")])%list in
  _build_files (device self) sources named_sc named_pc build_name ;;;
  (if run then _run_ise build_name ise_path source else ret tt) ;;;
  chdir "..".

End Process.

Arguments device {Fragment} _.
Arguments sources {Fragment} _.
Arguments get_verilog {Fragment} _ _.
Arguments mkPlatform {Fragment} _ _ _.

(** ** Clock and reset generator for a differential clock input *)

Module CRG.

(** The hardware objects the generator touches.  [Requested n] is what
    [platform.request(n)] returned; [LegP s] and [LegN s] are the [.p] and
    [.n] attributes of a differential pair; [DomainClk] and [DomainRst]
    are the clock and reset of the [sys] clock domain. *)
Inductive Signal : Type :=
| Requested (name : string)
| LegP (pair : Signal)
| LegN (pair : Signal)
| DomainClk
| DomainRst.

Inductive Expr : Type :=
| Sig (s : Signal)
| Not (e : Expr).              (* [~e] *)

(** [lhs.eq(rhs)] *)
Inductive Statement : Type :=
| Assign (lhs : Signal) (rhs : Expr).

Inductive Port : Type :=
| Input (name : string) (e : Expr)
| Output (name : string) (s : Signal).

Inductive Special : Type :=
| Instance (primitive : string) (ports : list Port).

(** [ClockDomain(reset_less=...)]: a reset-less domain has no reset
    signal ([rst] is [None]). *)
Record ClockDomain : Type := mkClockDomain {
  clk : Signal;
  rst : option Signal
}.

Definition new_ClockDomain (reset_less : bool) : ClockDomain :=
  mkClockDomain DomainClk (if reset_less then None else Some DomainRst).

(** The platform as the generator sees it: the resources requested so far
    and the platform commands added, each with its [clk] argument. *)
Record PlatformState : Type := mkPlatformState {
  requests : list string;
  commands : list (string * Signal)
}.

(** The module under construction. *)
Record Module_ : Type := mkModule {
  cd_sys : ClockDomain;
  _clk : Signal;
  specials : list Special;
  comb : list Statement
}.

Section Generator.

(** Whether the platform grants a request, given the earlier ones. *)
Variable grants : list string -> string -> bool.

(** Modelled from the spec: [platform.request] and
    [platform.add_platform_command] belong to [GenericPlatform], which is
    not part of the sources at hand.  A request hands out the named
    resource or fails; a platform command is recorded as given. *)
Definition request (name : string) : ST PlatformState Signal :=
  fun p =>
    if grants (requests p) name
    then (Ok (Requested name), mkPlatformState (requests p ++ [name]) (commands p))
    else (Raise (ConstraintError name), p).

Definition add_platform_command (command : string) (clk : Signal)
  : ST PlatformState unit :=
  fun p => (Ok tt, mkPlatformState (requests p) (commands p ++ [(command, clk)])).

Definition period_command (period : Z) : string :=
  "NET " ++ Py.dquote ++ "{clk}" ++ Py.dquote ++ " TNM_NET = "
    ++ Py.dquote ++ "GRPclk" ++ Py.dquote ++ ";" ++ Py.nl ++
  "TIMESPEC " ++ Py.dquote ++ "TSclk" ++ Py.dquote ++ " = PERIOD "
    ++ Py.dquote ++ "GRPclk" ++ Py.dquote ++ " " ++ Py.str period
    ++ " ns HIGH 50%;".

(** [_add_period_constraint]; the period is a whole number of
    nanoseconds here. *)
Definition _add_period_constraint (clk : Signal) (period : option Z)
  : ST PlatformState unit :=
  match period with
  | Some p => add_platform_command (period_command p) clk
  | None => ret tt
  end.

(** [CRG_DS.__init__] *)
Definition CRG_DS (clk_name : string) (rst_name : option string)
    (period : option Z) (rst_invert : bool) : ST PlatformState Module_ :=
  let reset_less := match rst_name with None => true | Some _ => false end in
  let cd_sys := new_ClockDomain reset_less in
  _clk <- request clk_name ;;
  _add_period_constraint (LegP _clk) period ;;;
  let specials :=
    [Instance "IBUFGDS"
       [Input "I" (Sig (LegP _clk));
        Input "IB" (Sig (LegN _clk));
        Output "O" (clk cd_sys)]] in
  match rst_name, rst cd_sys with
  | Some rst_name, Some cd_rst =>
      if rst_invert then
        r <- request rst_name ;;
        ret (mkModule cd_sys _clk specials [Assign cd_rst (Not (Sig r))])
      else
        r <- request rst_name ;;
        ret (mkModule cd_sys _clk specials [Assign cd_rst (Sig r)])
  | Some _, None => raise (Raised "AttributeError")
  | None, _ => ret (mkModule cd_sys _clk specials [])
  end.

End Generator.

End CRG.

(** ** A concrete host *)

Module Example.

Definition is_digit (c : ascii) : bool :=
  andb (48 <=? nat_of_ascii c)%nat (nat_of_ascii c <=? 57)%nat.

Fixpoint span_digits (s : string) : nat * string :=
  match s with
  | EmptyString => (0%nat, EmptyString)
  | String c s' =>
      if is_digit c then let (n, r) := span_digits s' in (S n, r)
      else (0%nat, s)
  end.

Definition drop_sign (s : string) : string :=
  match s with
  | String c s' =>
      if orb (Ascii.eqb c "+"%char) (Ascii.eqb c "-"%char) then s' else s
  | EmptyString => s
  end.

Definition exponent_ok (s : string) : bool :=
  match s with
  | EmptyString => true
  | String c s' =>
      if orb (Ascii.eqb c "e"%char) (Ascii.eqb c "E"%char) then
        let (n, r) := span_digits (drop_sign s') in
        andb (0 <? n)%nat (String.eqb r EmptyString)
      else false
  end.

(** Plain decimal literals: an optional sign, digits with an optional
    point, an optional exponent.  [Decimal] accepts all of these. *)
Definition decimal_literal (s : string) : bool :=
  let (n1, r1) := span_digits (drop_sign s) in
  match r1 with
  | String "."%char r2 =>
      let (n2, r3) := span_digits r2 in
      andb (0 <? n1 + n2)%nat (exponent_ok r3)
  | _ => andb (0 <? n1)%nat (exponent_ok r1)
  end.

(** A 64-bit Linux machine whose installation root [/opt/Xilinx] lists
    [names], all of them directories, where every write succeeds and the
    build script exits with [status]. *)
Definition linux (names : list string) (status : Z) : Host :=
  mkHost "linux" 8
    (fun _ path => if String.eqb path "/opt/Xilinx" then Ok names
                   else Raise (Raised "FileNotFoundError"))
    (fun _ _ => true)
    decimal_literal
    (fun _ _ => false)
    (fun _ _ => Ok status).

Definition installed : list string := ["13.1"; "14.7"; "notaversion"; "2.0"].

Definition home : World := mkWorld ["home"; "user"] [].

(** Signal constraints: a scalar clock, a two-bit bus, and an entry whose
    pin sequence is empty. *)
Definition clk_entry : NamedSC :=
  ("clk", ["A8"], [IOStandard "LVCMOS33"], ("clk_pin", 0%Z, None)).

Definition bus_entry : NamedSC :=
  ("d", ["A8"; "B3"], [Drive 8; Unrecognized "Slew"], ("data", 1%Z, Some "d")).

Definition no_pin_entry : NamedSC :=
  ("led", [], [IOStandard "LVCMOS33"], ("user_led", 0%Z, None)).

Definition no_loc_entry : NamedSC :=
  ("clk", ["A8"], [Pins []], ("clk_pin", 0%Z, None)).

(** A platform without extra sources whose elaborator returns one scalar
    clock constraint. *)
Definition clk_platform : Platform unit :=
  mkPlatform "xc6slx45-fgg484-2" []
    (fun _ => Ok ("module top(input clk); endmodule", [clk_entry], [])).

(** A platform with two sources of its own. *)
Definition board_platform : Platform unit :=
  mkPlatform "xc6slx45-fgg484-2" [("uart.v", "verilog"); ("pll.vhd", "vhdl")]
    (fun _ => Ok ("module top(input clk); endmodule", [clk_entry], [])).

Definition top_v : string := "module top(input clk); endmodule".

Definition top_ucf : string :=
  "NET " ++ Py.dquote ++ "clk" ++ Py.dquote
    ++ " LOC=A8 | IOSTANDARD=LVCMOS33; # clk_pin:0" ++ Py.nl.

End Example.

(** ** The text the specification describes *)

Module Expected.

(** Concatenation of lines. *)
Fixpoint cat_all (l : list string) : string :=
  match l with
  | [] => EmptyString
  | x :: l' => x ++ cat_all l'
  end.

(** The four defined constraint variants. *)
Definition recognized (c : Constraint) : bool :=
  match c with
  | Unrecognized _ => false
  | _ => true
  end.

(** A location entry must name at least one pin to have a fragment. *)
Definition well_formed (c : Constraint) : bool :=
  match c with
  | Pins [] => false
  | _ => true
  end.

Definition fragment_text (c : Constraint) : string :=
  match c with
  | Pins ids => "LOC=" ++ hd EmptyString ids
  | IOStandard name => "IOSTANDARD=" ++ name
  | Drive strength => "DRIVE=" ++ Py.str strength
  | Misc misc => misc
  | Unrecognized _ => EmptyString
  end.

(** One fragment per recognized entry, in the list's order. *)
Definition fragments (others : list Constraint) : list string :=
  map fragment_text (filter recognized others).

(** The signal name of bit [i] of a [k]-pin signal. *)
Definition bit_name (sig : string) (k i : nat) : string :=
  if (1 <? k)%nat then sig ++ "(" ++ Py.str (Z.of_nat i) ++ ")" else sig.

Definition ucf_line (signame pin : string) (others : list Constraint)
    (resname : ResName) : string :=
  "NET " ++ Py.dquote ++ signame ++ Py.dquote ++ " "
    ++ Py.join " | " (("LOC=" ++ pin) :: fragments others)
    ++ "; # " ++ format_resname resname ++ Py.nl.

Definition ucf_lines (e : NamedSC) : list string :=
  let '(sig, pins, others, resname) := e in
  map (fun ip => ucf_line (bit_name sig (length pins) (fst ip)) (snd ip) others resname)
      (combine (seq 0 (length pins)) pins).

(** The block of platform constraints that follows the signal lines. *)
Definition platform_block (named_pc : list string) : string :=
  match named_pc with
  | [] => EmptyString
  | _ :: _ => Py.nl ++ Py.join (Py.nl ++ Py.nl) named_pc
  end.

(** An entry the formatter can render: at least one pin, and every
    location entry of its constraint list names a pin. *)
Definition renderable (e : NamedSC) : Prop :=
  let '(_, pins, others, _) := e in
  (1 <= length pins)%nat /\ forallb well_formed others = true.

Definition prj_line (entry : string * string) : string :=
  snd entry ++ " work " ++ fst entry ++ Py.nl.

(** The lines of a text, without their terminators. *)
Fixpoint splitlines_from (s cur : string) : list string :=
  match s with
  | EmptyString => if String.eqb cur EmptyString then [] else [cur]
  | String c s' =>
      if Ascii.eqb c "010"%char then cur :: splitlines_from s' EmptyString
      else splitlines_from s' (cur ++ String c EmptyString)
  end.

Definition splitlines (s : string) : list string := splitlines_from s EmptyString.

(** Whether [_run_ise] sources the vendor environment. *)
Definition effective_source (host : Host) (source : bool) : bool :=
  if orb (String.eqb (sys_platform host) "win32")
         (String.eqb (sys_platform host) "cygwin")
  then false else source.

(** The version directory chosen when the working directory is [d]. *)
Definition version_choice (host : Host) (d : list string) (ise_path : string)
  : result string :=
  names <- listdir host d ise_path ;;
  Py.max (filter (_is_valid_version host d ise_path) names).

(** What a build needs to get as far as its generated files: a build
    directory to enter, an elaborator and a constraint formatter that
    succeed, and four writable files. *)
Definition prepared {Fragment} (host : Host) (self : Platform Fragment)
    (fragment : Fragment) (build_dir build_name : string) (w0 : World)
    (v_src ucf : string) : Prop :=
  build_dir <> EmptyString
  /\ (exists named_sc named_pc,
        get_verilog self fragment = Ok (v_src, named_sc, named_pc)
        /\ _build_ucf named_sc named_pc = Ok ucf)
  /\ forall ext, In ext [".v"; ".ucf"; ".prj"; ".xst"] ->
       write_fault host (resolve (cwd w0) build_dir) (build_name ++ ext) = false.

(** The events of a build up to and including its generated files. *)
Definition generated {Fragment} (self : Platform Fragment)
    (build_dir build_name : string) (w0 : World) (v_src ucf : string)
  : list Event :=
  let d := resolve (cwd w0) build_dir in
  [Mkdir (cwd w0) build_dir;
   WriteFile d (build_name ++ ".v") v_src;
   WriteFile d (build_name ++ ".ucf") ucf;
   WriteFile d (build_name ++ ".prj")
     (cat_all (map prj_line (sources self ++ [(build_name ++ ".v", "verilog")])));
   WriteFile d (build_name ++ ".xst") (xst_contents build_name (device self))].

(** The contents a file has after the events [t]: those of the last write
    to that name in that directory. *)
Definition write_to (d : list string) (name : string) (ev : Event)
  : option string :=
  match ev with
  | WriteFile d' n c =>
      if list_eq_dec string_dec d' d then
        if String.eqb n name then Some c else None
      else None
  | _ => None
  end.

Fixpoint written (t : list Event) (d : list string) (name : string)
  : option string :=
  match t with
  | [] => None
  | ev :: t' =>
      match written t' d name with
      | Some c => Some c
      | None => write_to d name ev
      end
  end.

Fixpoint last_char (s : string) : option ascii :=
  match s with
  | EmptyString => None
  | String c s' =>
      match last_char s' with
      | None => Some c
      | Some c' => Some c'
      end
  end.

Definition is_spawn (ev : Event) : bool :=
  match ev with
  | Spawn _ _ => true
  | _ => false
  end.

(** The events of [_run_ise]: it writes its script and spawns the shell,
    in the directory it was called in. *)
Definition script_event (d : list string) (build_name : string) (ev : Event)
  : Prop :=
  (exists c, ev = WriteFile d ("build_" ++ build_name ++ ".sh") c)
  \/ ev = Spawn d ["bash"; "build_" ++ build_name ++ ".sh"].

End Expected.

(** ** The command-line entry point *)

(** The parsed options [build_arg_ns] reads: three optional values and two
    switches. *)
Record Namespace : Type := mkNamespace {
  ns_build_dir : option string;
  ns_build_name : option string;
  ns_ise_path : option string;
  no_source : bool;
  no_run : bool
}.

(** The keyword arguments of [build] a caller may pass along; an absent
    key is [None]. *)
Record Kwargs : Type := mkKwargs {
  kw_build_dir : option string;
  kw_build_name : option string;
  kw_ise_path : option string;
  kw_source : option bool;
  kw_run : option bool
}.

(** [if attr is not None: kwargs[n] = attr] *)
Definition set_attr {A} (attr kw : option A) : option A :=
  match attr with
  | Some a => Some a
  | None => kw
  end.

(** [if switch: kwargs[n] = False] *)
Definition set_false (switch : bool) (kw : option bool) : option bool :=
  if switch then Some false else kw.

(** A keyword argument, or the default of the parameter. *)
Definition keyword {A} (kw : option A) (default : A) : A :=
  match kw with
  | Some a => a
  | None => default
  end.

(** [self.build(fragment, **kwargs)] with the defaults of [build]. *)
Definition build_kwargs {Fragment} (host : Host) (self : Platform Fragment)
    (fragment : Fragment) (kwargs : Kwargs) : IO unit :=
  build host self fragment
    (keyword (kw_build_dir kwargs) "build")
    (keyword (kw_build_name kwargs) "top")
    (keyword (kw_ise_path kwargs) "/opt/Xilinx")
    (keyword (kw_source kwargs) true)
    (keyword (kw_run kwargs) true).

(** [XilinxISEPlatform.build_arg_ns], called with the fragment as its only
    positional argument. *)
Definition build_arg_ns {Fragment} (host : Host) (self : Platform Fragment)
    (ns : Namespace) (fragment : Fragment) (kwargs : Kwargs) : IO unit :=
  let kwargs :=
    mkKwargs (set_attr (ns_build_dir ns) (kw_build_dir kwargs))
             (set_attr (ns_build_name ns) (kw_build_name kwargs))
             (set_attr (ns_ise_path ns) (kw_ise_path kwargs))
             (kw_source kwargs) (kw_run kwargs) in
  let kwargs :=
    mkKwargs (kw_build_dir kwargs) (kw_build_name kwargs) (kw_ise_path kwargs)
             (set_false (no_source ns) (kw_source kwargs)) (kw_run kwargs) in
  let kwargs :=
    mkKwargs (kw_build_dir kwargs) (kw_build_name kwargs) (kw_ise_path kwargs)
             (kw_source kwargs) (set_false (no_run ns) (kw_run kwargs)) in
  build_kwargs host self fragment kwargs.

(** ** The special overrides of [get_verilog] *)

(** A Python dictionary as the list of its items, keys unique, in insertion
    order. *)
Module PyDict.

Section Dict.

Variables K V : Type.
Variable eq_dec : forall a b : K, {a = b} + {a <> b}.

(** [d[k] = v] *)
Fixpoint set (d : list (K * V)) (k : K) (v : V) : list (K * V) :=
  match d with
  | [] => [(k, v)]
  | (k', v') :: d' =>
      if eq_dec k' k then (k', v) :: d' else (k', v') :: set d' k v
  end.

(** [d.update(other)] *)
Definition update (d other : list (K * V)) : list (K * V) :=
  fold_left (fun acc item => set acc (fst item) (snd item)) other d.

(** [d.get(k)] *)
Fixpoint get (d : list (K * V)) (k : K) : option V :=
  match d with
  | [] => None
  | (k', v') :: d' => if eq_dec k' k then Some v' else get d' k
  end.

End Dict.

Arguments set {K V} eq_dec d k v.
Arguments update {K V} eq_dec d other.
Arguments get {K V} eq_dec d k.

End PyDict.

(** The special classes and their lowerings, by name. *)
Inductive SpecialClass : Type :=
| NoRetiming
| MultiReg
| OtherSpecial (name : string).

Inductive Lowering : Type :=
| XilinxNoRetiming
| XilinxMultiReg
| CallerLowering (name : string).

Definition SpecialClass_eq_dec (a b : SpecialClass) : {a = b} + {a <> b}.
Proof. decide equality. apply string_dec. Defined.

(** The dictionary [so] that [XilinxISEPlatform.get_verilog] hands to the
    elaborator. *)
Definition get_verilog_so (special_overrides : list (SpecialClass * Lowering))
  : list (SpecialClass * Lowering) :=
  let so := [(NoRetiming, XilinxNoRetiming); (MultiReg, XilinxMultiReg)] in
  PyDict.update SpecialClass_eq_dec so special_overrides.

(** ** The single-ended clock generator *)

Section SingleEnded.

(** [SimpleCRG.__init__] of [mibuild.crg], an external collaborator: what it
    does to the platform and the module it builds. *)
Variable SimpleCRG :
  string -> option string -> bool -> ST CRG.PlatformState CRG.Module_.

(** [CRG_SE.__init__] *)
Definition CRG_SE (clk_name : string) (rst_name : option string)
    (period : option Z) (rst_invert : bool) : ST CRG.PlatformState CRG.Module_ :=
  self <- SimpleCRG clk_name rst_name rst_invert ;;
  CRG._add_period_constraint (CRG._clk self) period ;;;
  ret self.

End SingleEnded.

(** ** More of what the specification describes *)

Module Behaviour.

(** [a <= b] on strings, as [max] sees it. *)
Definition str_le (a b : string) : Prop := Py.str_gt a b = false.



Definition script_name (build_name : string) : string :=
  "build_" ++ build_name ++ ".sh".

(** The script of a build that sources the settings of version [v]. *)
Definition sourced_script (host : Host) (build_name ise_path v : string) : string :=
  (script_header ++ "source " ++ ise_path ++ "/" ++ v ++ "/ISE_DS/settings"
     ++ Py.str (calcsize_P host * 8) ++ ".sh" ++ Py.nl)
  ++ script_pipeline build_name.

(** The script of a build that does not source anything. *)
Definition plain_script (build_name : string) : string :=
  script_header ++ script_pipeline build_name.

(** The two events of a toolchain run. *)
Definition run_events (d : list string) (build_name script : string) : list Event :=
  [WriteFile d (script_name build_name) script;
   Spawn d ["bash"; script_name build_name]].

(** The three writes of [_build_files], in their order. *)
Definition file_writes (d : list string) (build_name device ucf : string)
    (sources : list (string * string)) : list Event :=
  [WriteFile d (build_name ++ ".ucf") ucf;
   WriteFile d (build_name ++ ".prj") (prj_loop sources EmptyString);
   WriteFile d (build_name ++ ".xst") (xst_contents build_name device)].

(** A second host, like [Example.linux] but for its platform. *)
Definition windows (names : list string) (status : Z) : Host :=
  mkHost "win32" 8
    (fun _ _ => Raise (Raised "FileNotFoundError"))
    (fun _ _ => true)
    Example.decimal_literal
    (fun _ _ => false)
    (fun _ _ => Ok status).

(** A host on which one file cannot be written. *)
Definition read_only (file : string) : Host :=
  mkHost "linux" 8
    (fun _ _ => Ok Example.installed)
    (fun _ _ => true)
    Example.decimal_literal
    (fun _ name => String.eqb name file)
    (fun _ _ => Ok 0%Z).

(** A platform whose elaborator fails. *)
Definition broken_platform : Platform unit :=
  mkPlatform "xc6slx45-fgg484-2" [] (fun _ => Raise (Raised "elaboration")).

(** A platform whose elaborator returns a signal without pins. *)
Definition pinless_platform : Platform unit :=
  mkPlatform "xc6slx45-fgg484-2" []
    (fun _ => Ok (Example.top_v, [Example.no_pin_entry], [])).

(** A signal constraint without the entries the formatter does not know. *)
Definition strip_unrecognized (e : NamedSC) : NamedSC :=
  let '(sig, pins, others, resname) := e in
  (sig, pins, filter Expected.recognized others, resname).

End Behaviour.

(** * Properties *)

(** ** Strings and the exception monad *)

Lemma append_nil_r (s : string) : s ++ EmptyString = s.
Proof. induction s as [|c s IH]; simpl; [reflexivity | now rewrite IH]. Qed.

Lemma append_assoc (a b c : string) : (a ++ b) ++ c = a ++ (b ++ c).
Proof. induction a as [|x a IH]; simpl; [reflexivity | now rewrite IH]. Qed.

Lemma cat_all_app (l1 l2 : list string) :
  Expected.cat_all (l1 ++ l2) = Expected.cat_all l1 ++ Expected.cat_all l2.
Proof.
  induction l1 as [|x l1 IH]; simpl; [reflexivity |].
  now rewrite IH, append_assoc.
Qed.

(** ** The constraint formatter *)

Lemma format_constraint_raises (c : Constraint) (e : Exn) :
  _format_constraint c = Raise e -> e = IndexError.
Proof.
  destruct c as [ids| | | |]; simpl; try discriminate.
  destruct ids; simpl; [now inversion 1 | discriminate].
Qed.

Lemma format_constraint_well_formed (c : Constraint) :
  Expected.well_formed c = true ->
  _format_constraint c =
    Ok (if Expected.recognized c then Some (Expected.fragment_text c) else None).
Proof.
  destruct c as [ids| | | |]; simpl; try reflexivity.
  destruct ids; [discriminate | reflexivity].
Qed.

Lemma format_loop_raises (cs : list Constraint) :
  forall acc e, format_loop cs acc = Raise e -> e = IndexError.
Proof.
  induction cs as [|c cs IH]; intros acc e; simpl; [discriminate |].
  destruct (_format_constraint c) as [fc|x] eqn:Hc.
  - apply IH.
  - intros H; inversion H; subst. eapply format_constraint_raises, Hc.
Qed.

Lemma format_loop_fragments (cs : list Constraint) :
  forall acc,
    forallb Expected.well_formed cs = true ->
    format_loop cs acc = Ok (acc ++ Expected.fragments cs)%list.
Proof.
  induction cs as [|c cs IH]; intros acc Hwf; simpl in *.
  - now rewrite app_nil_r.
  - apply andb_true_iff in Hwf as [Hc Hcs].
    rewrite (format_constraint_well_formed c Hc).
    unfold Expected.fragments; simpl.
    destruct (Expected.recognized c); rewrite (IH _ Hcs); unfold Expected.fragments.
    + now rewrite <- app_assoc.
    + reflexivity.
Qed.

Lemma format_loop_skips (l1 l2 : list Constraint) (repr : string) :
  forall acc,
    format_loop (l1 ++ Unrecognized repr :: l2) acc = format_loop (l1 ++ l2) acc.
Proof.
  induction l1 as [|c l1 IH]; intros acc; simpl; [reflexivity |].
  destruct (_format_constraint c) as [fc|x]; [apply IH | reflexivity].
Qed.

Lemma format_ucf_raises signame pin others resname e :
  _format_ucf signame pin others resname = Raise e -> e = IndexError.
Proof.
  unfold _format_ucf.
  destruct (format_loop (Pins [pin] :: others) []) as [f|x] eqn:Hl; simpl.
  - discriminate.
  - intros H; inversion H; subst. eapply format_loop_raises, Hl.
Qed.

Lemma format_ucf_line signame pin others resname :
  forallb Expected.well_formed others = true ->
  _format_ucf signame pin others resname =
    Ok (Expected.ucf_line signame pin others resname).
Proof.
  intros Hwf. unfold _format_ucf.
  rewrite (format_loop_fragments (Pins [pin] :: others) []) by exact Hwf.
  reflexivity.
Qed.

Lemma ucf_bits_raises sig others resname (pins : list string) :
  forall i r e, ucf_bits sig others resname i pins r = Raise e -> e = IndexError.
Proof.
  induction pins as [|p pins IH]; intros i r e; simpl; [discriminate |].
  destruct (_format_ucf _ p others resname) as [l|x] eqn:Hf.
  - apply IH.
  - intros H; inversion H; subst. eapply format_ucf_raises, Hf.
Qed.

Lemma ucf_entry_raises (entry : NamedSC) (r : string) (e : Exn) :
  ucf_entry entry r = Raise e -> e = IndexError.
Proof.
  destruct entry as [[[sig pins] others] resname]; unfold ucf_entry.
  destruct (1 <? length pins)%nat.
  - apply ucf_bits_raises.
  - destruct pins as [|p pins]; simpl; [now inversion 1 |].
    destruct (_format_ucf sig p others resname) as [l|x] eqn:Hf; [discriminate |].
    intros H; inversion H; subst. eapply format_ucf_raises, Hf.
Qed.

Lemma ucf_loop_raises (named_sc : list NamedSC) :
  forall r e, ucf_loop named_sc r = Raise e -> e = IndexError.
Proof.
  induction named_sc as [|entry rest IH]; intros r e; simpl; [discriminate |].
  destruct (ucf_entry entry r) as [r'|x] eqn:He.
  - apply IH.
  - intros H; inversion H; subst. eapply ucf_entry_raises, He.
Qed.

Lemma ucf_loop_empty_pins (named_sc : list NamedSC) sig others resname :
  In (sig, [], others, resname) named_sc ->
  forall r, ucf_loop named_sc r = Raise IndexError.
Proof.
  induction named_sc as [|entry rest IH]; intros Hin r; [contradiction |].
  simpl. destruct Hin as [-> | Hin].
  - reflexivity.
  - destruct (ucf_entry entry r) as [r'|x] eqn:He.
    + now apply IH.
    + now rewrite (ucf_entry_raises _ _ _ He).
Qed.

Lemma ucf_bits_lines sig others resname :
  forallb Expected.well_formed others = true ->
  forall pins i r,
    ucf_bits sig others resname i pins r =
      Ok (r ++ Expected.cat_all
                 (map (fun ip => Expected.ucf_line
                                   (sig ++ "(" ++ Py.str (Z.of_nat (fst ip)) ++ ")")
                                   (snd ip) others resname)
                      (combine (seq i (length pins)) pins))).
Proof.
  intros Hwf pins; induction pins as [|p pins IH]; intros i r; simpl.
  - now rewrite append_nil_r.
  - rewrite format_ucf_line by exact Hwf. simpl.
    rewrite IH. now rewrite append_assoc.
Qed.

Lemma ucf_entry_lines (entry : NamedSC) (r : string) :
  Expected.renderable entry ->
  ucf_entry entry r = Ok (r ++ Expected.cat_all (Expected.ucf_lines entry)).
Proof.
  destruct entry as [[[sig pins] others] resname]; intros [Hk Hwf].
  unfold ucf_entry, Expected.ucf_lines, Expected.bit_name.
  destruct (1 <? length pins)%nat eqn:Hv.
  - now rewrite ucf_bits_lines.
  - apply Nat.ltb_ge in Hv.
    destruct pins as [|p [|q pins]]; simpl in *; try lia.
    rewrite format_ucf_line by exact Hwf. simpl.
    now rewrite append_nil_r.
Qed.

Lemma ucf_loop_lines (named_sc : list NamedSC) :
  Forall Expected.renderable named_sc ->
  forall r,
    ucf_loop named_sc r =
      Ok (r ++ Expected.cat_all (flat_map Expected.ucf_lines named_sc)).
Proof.
  induction 1 as [|entry rest Hentry _ IH]; intros r; simpl.
  - now rewrite append_nil_r.
  - rewrite ucf_entry_lines by exact Hentry. simpl.
    rewrite IH, cat_all_app. now rewrite append_assoc.
Qed.

Lemma build_ucf_text (named_sc : list NamedSC) (named_pc : list string) :
  Forall Expected.renderable named_sc ->
  _build_ucf named_sc named_pc =
    Ok (Expected.cat_all (flat_map Expected.ucf_lines named_sc)
          ++ Expected.platform_block named_pc).
Proof.
  intros H. unfold _build_ucf. rewrite ucf_loop_lines by exact H. simpl.
  destruct named_pc; simpl; [now rewrite append_nil_r | reflexivity].
Qed.

Lemma nth_error_enumerate {A} (l : list A) :
  forall s i,
    nth_error (combine (seq s (length l)) l) i =
      option_map (fun a => ((s + i)%nat, a)) (nth_error l i).
Proof.
  induction l as [|a l IH]; intros s i; simpl.
  - now destruct i.
  - destruct i as [|i]; simpl.
    + now rewrite Nat.add_0_r.
    + rewrite IH. now rewrite Nat.add_succ_r.
Qed.

(** C3 (as amended).  When every signal constraint has at least one pin and
    every location entry of its constraint list names a pin, the constraint
    file is the concatenation of the lines of its entries; an entry with k
    pins gives exactly k lines; line i carries the signal name, suffixed
    "(i)" exactly when k > 1, then the location fragment of pin i followed by
    one fragment per recognized entry of the constraint list, in the list's
    order. *)
Theorem build_ucf_one_line_per_pin
    (named_sc : list NamedSC) (named_pc : list string) :
  Forall Expected.renderable named_sc ->
  _build_ucf named_sc named_pc =
    Ok (Expected.cat_all (flat_map Expected.ucf_lines named_sc)
          ++ Expected.platform_block named_pc)
  /\ forall sig pins others resname,
       In (sig, pins, others, resname) named_sc ->
       length (Expected.ucf_lines (sig, pins, others, resname)) = length pins
       /\ forall i pin,
            nth_error pins i = Some pin ->
            nth_error (Expected.ucf_lines (sig, pins, others, resname)) i =
              Some ("NET " ++ Py.dquote
                      ++ (if (1 <? length pins)%nat
                          then sig ++ "(" ++ Py.str (Z.of_nat i) ++ ")"
                          else sig)
                      ++ Py.dquote ++ " "
                      ++ Py.join " | "
                           (("LOC=" ++ pin)
                              :: map Expected.fragment_text
                                   (filter Expected.recognized others))
                      ++ "; # " ++ format_resname resname ++ Py.nl).
Proof.
  intros Hall. split; [now apply build_ucf_text |].
  intros sig pins others resname _. unfold Expected.ucf_lines. split.
  - now rewrite length_map, length_combine, length_seq, Nat.min_id.
  - intros i pin Hpin.
    rewrite nth_error_map, nth_error_enumerate, Hpin. reflexivity.
Qed.

(** A two-bit bus with a drive strength and an entry the formatter does not
    know. *)
Lemma build_ucf_one_line_per_pin_witness :
  Forall Expected.renderable [Example.bus_entry]
  /\ _build_ucf [Example.bus_entry] [] =
     Ok ("NET " ++ Py.dquote ++ "d(0)" ++ Py.dquote ++ " LOC=A8 | DRIVE=8; # data:1.d" ++ Py.nl
         ++ "NET " ++ Py.dquote ++ "d(1)" ++ Py.dquote ++ " LOC=B3 | DRIVE=8; # data:1.d" ++ Py.nl).
Proof.
  assert (H : Forall Expected.renderable [Example.bus_entry]).
  { constructor; [split; [simpl; lia | reflexivity] | constructor]. }
  split; [exact H |].
  exact (proj1 (build_ucf_one_line_per_pin _ [] H)).
Defined.

(** C3 fails as first stated: a signal constraint without pins gives an
    error, not zero lines; and a location entry without pin identifiers in
    the constraint list gives an error, not a line. *)
Lemma build_ucf_no_pins_counterexample :
  _build_ucf [Example.no_pin_entry] [] = Raise IndexError
  /\ _build_ucf [Example.no_loc_entry] [] = Raise IndexError.
Proof. split; reflexivity. Qed.

(** C6.  An entry that is none of the four defined variants formats to
    nothing without an error, and the line is the one the list without that
    entry gives. *)
Theorem format_ucf_skips_unrecognized
    (signame pin repr : string) (before after : list Constraint)
    (resname : ResName) :
  _format_constraint (Unrecognized repr) = Ok None
  /\ _format_ucf signame pin (before ++ Unrecognized repr :: after) resname
     = _format_ucf signame pin (before ++ after) resname.
Proof.
  split; [reflexivity |].
  unfold _format_ucf. simpl.
  now rewrite format_loop_skips.
Qed.

(** C10.  A signal constraint with an empty pin sequence makes the
    construction of the constraint file fail with an index error, whatever
    the other entries are. *)
Theorem build_ucf_empty_pins_raises
    (named_sc : list NamedSC) (named_pc : list string)
    (sig : string) (others : list Constraint) (resname : ResName) :
  In (sig, [], others, resname) named_sc ->
  _build_ucf named_sc named_pc = Raise IndexError.
Proof.
  intros Hin. unfold _build_ucf.
  now rewrite (ucf_loop_empty_pins named_sc sig others resname Hin).
Qed.

Lemma build_ucf_empty_pins_raises_witness :
  In ("led", [], [IOStandard "LVCMOS33"], ("user_led", 0%Z, None))
     [Example.clk_entry; Example.no_pin_entry]
  /\ _build_ucf [Example.clk_entry; Example.no_pin_entry] ["CONFIG VCCAUX=3.3;"]
     = Raise IndexError.
Proof.
  assert (H : In ("led", [], [IOStandard "LVCMOS33"], ("user_led", 0%Z, None))
                 [Example.clk_entry; Example.no_pin_entry]).
  { right; left; reflexivity. }
  split; [exact H |].
  exact (build_ucf_empty_pins_raises _ _ _ _ _ H).
Defined.

(** ** The project file and the build *)

Lemma prj_loop_lines (sources : list (string * string)) :
  forall acc,
    prj_loop sources acc = acc ++ Expected.cat_all (map Expected.prj_line sources).
Proof.
  induction sources as [|[filename language] rest IH]; intros acc; simpl.
  - now rewrite append_nil_r.
  - rewrite IH. unfold Expected.prj_line; simpl.
    now rewrite !append_assoc.
Qed.

Lemma resolve_parent (d : list string) : resolve d ".." = removelast d.
Proof. reflexivity. Qed.

Lemma build_generates {Fragment} (host : Host) (self : Platform Fragment)
    (fragment : Fragment) (build_dir build_name ise_path : string)
    (source run : bool) (w0 : World) (v_src ucf : string) :
  Expected.prepared host self fragment build_dir build_name w0 v_src ucf ->
  build host self fragment build_dir build_name ise_path source run w0 =
    ((if run then _run_ise host build_name ise_path source else ret tt) ;;;
     chdir "..")
      (mkWorld (resolve (cwd w0) build_dir)
               (trace w0 ++ Expected.generated self build_dir build_name w0 v_src ucf)).
Proof.
  intros (Hdir & (named_sc & named_pc & Hv & Hucf) & Hw).
  apply String.eqb_neq in Hdir.
  unfold build, mkdir_noerror, chdir, _build_files, write_to_file, getcwd, emit, lift.
  cbn [bind ret ST_monad cwd trace]. rewrite Hdir, Hv. cbn [cwd trace].
  rewrite (Hw ".v") by (simpl; tauto). cbn [cwd trace]. rewrite Hucf.
  rewrite (Hw ".ucf") by (simpl; tauto). cbn [cwd trace].
  rewrite (Hw ".prj") by (simpl; tauto). cbn [cwd trace].
  rewrite (Hw ".xst") by (simpl; tauto). cbn [cwd trace].
  rewrite prj_loop_lines. cbn [append].
  unfold Expected.generated. rewrite <- !app_assoc. reflexivity.
Qed.

Lemma select_version_pure (host : Host) (ise_path : string) (w : World) :
  select_version host ise_path w
    = (Expected.version_choice host (cwd w) ise_path, w).
Proof.
  unfold select_version, Expected.version_choice, getcwd, lift.
  cbn [bind ret ST_monad result_monad].
  destruct (listdir host (cwd w) ise_path); reflexivity.
Qed.

Lemma run_ise_events (host : Host) (build_name ise_path : string)
    (source : bool) (w : World) :
  exists evs,
    snd (_run_ise host build_name ise_path source w)
      = mkWorld (cwd w) (trace w ++ evs)
    /\ Forall (Expected.script_event (cwd w) build_name) evs.
Proof.
  assert (Hnil : mkWorld (cwd w) (trace w ++ []) = w)
    by (rewrite app_nil_r; now destruct w).
  unfold _run_ise.
  fold (Expected.effective_source host source).
  destruct (Expected.effective_source host source).
  - cbn [bind ret ST_monad]. rewrite select_version_pure.
    destruct (Expected.version_choice host (cwd w) ise_path) as [v|e].
    + unfold write_to_file, getcwd, emit, lift, raise. cbn [bind ret ST_monad cwd trace].
      destruct (write_fault host (cwd w) _).
      * exists []. split; [now rewrite Hnil | constructor].
      * cbn [cwd trace]. rewrite <- app_assoc. eexists. split.
        -- destruct (subprocess_call host (cwd w) _) as [r|e];
             [destruct (r =? 0)%Z |]; reflexivity.
        -- cbn [app]. constructor; [left; eexists; reflexivity |].
           constructor; [right; reflexivity | constructor].
    + exists []. split; [now rewrite Hnil | constructor].
  - unfold write_to_file, getcwd, emit, lift, raise. cbn [bind ret ST_monad cwd trace].
    destruct (write_fault host (cwd w) _).
    + exists []. split; [now rewrite Hnil | constructor].
    + cbn [cwd trace]. rewrite <- app_assoc. eexists. split.
      * destruct (subprocess_call host (cwd w) _) as [r|e];
          [destruct (r =? 0)%Z |]; reflexivity.
      * cbn [app]. constructor; [left; eexists; reflexivity |].
        constructor; [right; reflexivity | constructor].
Qed.

(** A toolchain that exits with a nonzero status makes [_run_ise] raise,
    after the script was written and the shell spawned. *)
Lemma run_ise_subprocess_failed (host : Host) (build_name ise_path : string)
    (source : bool) (w : World) (status : Z) :
  (Expected.effective_source host source = false
   \/ exists v, Expected.version_choice host (cwd w) ise_path = Ok v) ->
  write_fault host (cwd w) ("build_" ++ build_name ++ ".sh") = false ->
  subprocess_call host (cwd w) ["bash"; "build_" ++ build_name ++ ".sh"] = Ok status ->
  status <> 0%Z ->
  exists script,
    _run_ise host build_name ise_path source w =
      (Raise (OSError "Subprocess failed"),
       mkWorld (cwd w)
               (trace w ++ [WriteFile (cwd w) ("build_" ++ build_name ++ ".sh") script;
                            Spawn (cwd w) ["bash"; "build_" ++ build_name ++ ".sh"]])).
Proof.
  intros Hsel Hwr Hcall Hst. apply Z.eqb_neq in Hst.
  unfold _run_ise.
  fold (Expected.effective_source host source).
  destruct (Expected.effective_source host source).
  - destruct Hsel as [Hsel | [v Hv]]; [discriminate |].
    cbn [bind ret ST_monad]. rewrite select_version_pure, Hv.
    unfold write_to_file, getcwd, emit, lift, raise. cbn [bind ret ST_monad cwd trace].
    rewrite Hwr. cbn [cwd trace]. rewrite Hcall, Hst, <- app_assoc.
    eexists. reflexivity.
  - unfold write_to_file, getcwd, emit, lift, raise. cbn [bind ret ST_monad cwd trace].
    rewrite Hwr. cbn [cwd trace]. rewrite Hcall, Hst, <- app_assoc.
    eexists. reflexivity.
Qed.

(** *** File names of a build are pairwise different *)

Lemma append_inj_l (a b c : string) : a ++ b = a ++ c -> b = c.
Proof. induction a as [|x a IH]; simpl; [auto | intros H; inversion H; auto]. Qed.

Lemma last_char_app (a b : string) :
  b <> EmptyString ->
  Expected.last_char (a ++ b) = Expected.last_char b.
Proof.
  intros Hb. induction a as [|x a IH]; simpl; [reflexivity |].
  rewrite IH. destruct b as [|y b]; [contradiction |].
  simpl. now destruct (Expected.last_char b).
Qed.

Lemma extension_differs (build_name e1 e2 : string) :
  e1 <> e2 -> String.eqb (build_name ++ e1) (build_name ++ e2) = false.
Proof.
  intros Hne. apply String.eqb_neq. intros H. apply Hne.
  eapply append_inj_l, H.
Qed.

Lemma script_name_differs (build_name ext : string) :
  In ext [".v"; ".ucf"; ".prj"; ".xst"] ->
  String.eqb ("build_" ++ build_name ++ ".sh") (build_name ++ ext) = false.
Proof.
  intros Hext. apply String.eqb_neq. intros H.
  apply (f_equal Expected.last_char) in H.
  rewrite <- append_assoc in H.
  rewrite (last_char_app ("build_" ++ build_name) ".sh") in H by discriminate.
  simpl in Hext.
  destruct Hext as [<- | [<- | [<- | [<- | []]]]];
    rewrite last_char_app in H by discriminate; discriminate.
Qed.

(** *** Files as the trace leaves them *)

Lemma written_app (t1 t2 : list Event) (d : list string) (name : string) :
  Expected.written (t1 ++ t2) d name =
    match Expected.written t2 d name with
    | Some c => Some c
    | None => Expected.written t1 d name
    end.
Proof.
  induction t1 as [|ev t1 IH]; simpl.
  - now destruct (Expected.written t2 d name).
  - rewrite IH. now destruct (Expected.written t2 d name).
Qed.

Lemma write_to_same (d : list string) (name c : string) :
  Expected.write_to d name (WriteFile d name c) = Some c.
Proof.
  unfold Expected.write_to.
  destruct (list_eq_dec string_dec d d) as [_ | Hne]; [| contradiction].
  now rewrite String.eqb_refl.
Qed.

Lemma write_to_other (d d' : list string) (name n c : string) :
  String.eqb n name = false ->
  Expected.write_to d name (WriteFile d' n c) = None.
Proof.
  intros Hn. unfold Expected.write_to. rewrite Hn.
  now destruct (list_eq_dec string_dec d' d).
Qed.

Lemma written_script_events (d d' : list string) (build_name ext : string)
    (evs : list Event) :
  In ext [".v"; ".ucf"; ".prj"; ".xst"] ->
  Forall (Expected.script_event d' build_name) evs ->
  Expected.written evs d (build_name ++ ext) = None.
Proof.
  intros Hext. induction 1 as [|ev evs Hev _ IH]; simpl; [reflexivity |].
  rewrite IH. destruct Hev as [[c ->] | ->]; [| reflexivity].
  apply write_to_other, script_name_differs, Hext.
Qed.

Lemma written_generated_prj {Fragment} (self : Platform Fragment)
    (build_dir build_name : string) (w0 : World) (v_src ucf : string) :
  Expected.written (Expected.generated self build_dir build_name w0 v_src ucf)
                   (resolve (cwd w0) build_dir) (build_name ++ ".prj")
  = Some (Expected.cat_all
            (map Expected.prj_line (sources self ++ [(build_name ++ ".v", "verilog")]))).
Proof.
  unfold Expected.generated. cbn [Expected.written].
  rewrite (write_to_other _ _ _ (build_name ++ ".xst"))
    by (apply extension_differs; discriminate).
  now rewrite write_to_same.
Qed.

(** What follows the generated files in a build only adds script events. *)
Lemma build_tail_events (host : Host) (build_name ise_path : string)
    (source run : bool) (w : World) :
  exists evs,
    trace (snd (((if run then _run_ise host build_name ise_path source else ret tt)
                 ;;; chdir "..") w))
      = (trace w ++ evs)%list
    /\ Forall (Expected.script_event (cwd w) build_name) evs.
Proof.
  destruct run.
  - destruct (run_ise_events host build_name ise_path source w) as (evs & Hw & Hevs).
    exists evs. split; [| exact Hevs].
    cbn [bind ST_monad].
    destruct (_run_ise host build_name ise_path source w) as [[[]|e] w'];
      simpl in Hw; subst w'; reflexivity.
  - exists []. split; [| constructor].
    cbn. now rewrite app_nil_r.
Qed.

(** C5.  A build that gets as far as its generated files leaves a project
    file made of one line "language work path" per source entry, in the
    order of the source list, the generated file ("verilog") being the last
    entry. *)
Theorem build_project_file {Fragment} (host : Host) (self : Platform Fragment)
    (fragment : Fragment) (build_dir build_name ise_path : string)
    (source run : bool) (w0 : World) (v_src ucf : string) :
  Expected.prepared host self fragment build_dir build_name w0 v_src ucf ->
  Expected.written
    (trace (snd (build host self fragment build_dir build_name ise_path source run w0)))
    (resolve (cwd w0) build_dir) (build_name ++ ".prj")
  = Some (Expected.cat_all (map Expected.prj_line (sources self))
          ++ "verilog work " ++ build_name ++ ".v" ++ Py.nl)
  /\ forall entries,
       prj_loop entries EmptyString
       = Expected.cat_all
           (map (fun entry => snd entry ++ " work " ++ fst entry ++ Py.nl) entries).
Proof.
  intros Hprep. split.
  - rewrite (build_generates host self fragment build_dir build_name ise_path
               source run w0 v_src ucf Hprep).
    destruct (build_tail_events host build_name ise_path source run
                (mkWorld (resolve (cwd w0) build_dir)
                   (trace w0 ++ Expected.generated self build_dir build_name w0 v_src ucf)))
      as (evs & -> & Hevs).
    cbn [trace cwd] in *.
    rewrite written_app.
    rewrite (written_script_events _ _ build_name ".prj" evs) by (simpl; tauto || exact Hevs).
    rewrite written_app, written_generated_prj.
    rewrite map_app, cat_all_app. cbn [map Expected.cat_all].
    rewrite append_nil_r. unfold Expected.prj_line. cbn [fst snd append].
    now rewrite append_assoc.
  - intros entries. now rewrite prj_loop_lines.
Qed.

Lemma example_prepared (self : Platform unit) (names : list string) (status : Z) :
  get_verilog self tt = Ok (Example.top_v, [Example.clk_entry], []) ->
  Expected.prepared (Example.linux names status) self tt "build" "top"
    Example.home Example.top_v Example.top_ucf.
Proof.
  intros Hv. split; [discriminate |]. split.
  - exists [Example.clk_entry], []. split; [exact Hv | reflexivity].
  - intros ext _. reflexivity.
Defined.

Lemma build_project_file_witness :
  Expected.prepared (Example.linux Example.installed 0) Example.board_platform tt
    "build" "top" Example.home Example.top_v Example.top_ucf
  /\ Expected.written
       (trace (snd (build (Example.linux Example.installed 0) Example.board_platform tt
                      "build" "top" "/opt/Xilinx" true true Example.home)))
       ["home"; "user"; "build"] "top.prj"
     = Some ("verilog work uart.v" ++ Py.nl ++ "vhdl work pll.vhd" ++ Py.nl
             ++ "verilog work top.v" ++ Py.nl).
Proof.
  split.
  - apply example_prepared. reflexivity.
  - exact (proj1 (build_project_file (Example.linux Example.installed 0)
                    Example.board_platform tt "build" "top" "/opt/Xilinx" true true
                    Example.home Example.top_v Example.top_ucf
                    (example_prepared Example.board_platform Example.installed 0 eq_refl))).
Defined.

(** Without [run] no path through a build spawns anything, however far it
    gets. *)
Lemma build_norun_spawns_nothing {Fragment} (host : Host) (self : Platform Fragment)
    (fragment : Fragment) (build_dir build_name ise_path : string)
    (source : bool) (w0 : World) :
  filter Expected.is_spawn
    (trace (snd (build host self fragment build_dir build_name ise_path source false w0)))
  = filter Expected.is_spawn (trace w0).
Proof.
  unfold build, mkdir_noerror, chdir, _build_files, write_to_file, getcwd, emit,
    lift, raise.
  cbn [bind ret ST_monad cwd trace].
  destruct (String.eqb build_dir EmptyString); cbn [snd cwd trace].
  - rewrite filter_app. simpl. now rewrite app_nil_r.
  - destruct (get_verilog self fragment) as [[[v_src named_sc] named_pc]|e];
      cbn [snd cwd trace].
    2: { rewrite filter_app. simpl. now rewrite app_nil_r. }
    destruct (write_fault host _ (build_name ++ ".v")); cbn [snd cwd trace].
    1: { rewrite filter_app. simpl. now rewrite app_nil_r. }
    destruct (_build_ucf named_sc named_pc) as [ucf|e]; cbn [snd cwd trace].
    2: { rewrite !filter_app. simpl. now rewrite !app_nil_r. }
    destruct (write_fault host _ (build_name ++ ".ucf")); cbn [snd cwd trace].
    1: { rewrite !filter_app. simpl. now rewrite !app_nil_r. }
    destruct (write_fault host _ (build_name ++ ".prj")); cbn [snd cwd trace].
    1: { rewrite !filter_app. simpl. now rewrite !app_nil_r. }
    destruct (write_fault host _ (build_name ++ ".xst"));
      cbn [snd cwd trace String.eqb];
      rewrite !filter_app; simpl; now rewrite !app_nil_r.
Qed.

(** C7.  Without [run] a build spawns nothing, and when it gets as far as
    its generated files it writes the four of them (hardware description,
    constraints, project, synthesis options) and returns; with [run], a
    toolchain that exits with a nonzero status makes the build raise the
    error of [_run_ise]. *)
Theorem build_run_flag {Fragment} (host : Host) (self : Platform Fragment)
    (fragment : Fragment) (build_dir build_name ise_path : string)
    (source : bool) (w0 : World) (v_src ucf : string) :
  Expected.prepared host self fragment build_dir build_name w0 v_src ucf ->
  let d := resolve (cwd w0) build_dir in
  filter Expected.is_spawn
    (trace (snd (build host self fragment build_dir build_name ise_path source false w0)))
  = filter Expected.is_spawn (trace w0)
  /\ (build host self fragment build_dir build_name ise_path source false w0
      = (Ok tt,
         mkWorld (removelast d)
           (trace w0 ++
              [Mkdir (cwd w0) build_dir;
               WriteFile d (build_name ++ ".v") v_src;
               WriteFile d (build_name ++ ".ucf") ucf;
               WriteFile d (build_name ++ ".prj")
                 (prj_loop (sources self ++ [(build_name ++ ".v", "verilog")]) EmptyString);
               WriteFile d (build_name ++ ".xst") (xst_contents build_name (device self))])))
  /\ forall status,
       (Expected.effective_source host source = false
        \/ exists v, Expected.version_choice host d ise_path = Ok v) ->
       write_fault host d ("build_" ++ build_name ++ ".sh") = false ->
       subprocess_call host d ["bash"; "build_" ++ build_name ++ ".sh"] = Ok status ->
       status <> 0%Z ->
       fst (build host self fragment build_dir build_name ise_path source true w0)
       = Raise (OSError "Subprocess failed").
Proof.
  intros Hprep d. unfold d; clear d.
  split; [apply build_norun_spawns_nothing |]. split.
  - rewrite (build_generates host self fragment build_dir build_name ise_path
               source false w0 v_src ucf Hprep).
    rewrite prj_loop_lines. reflexivity.
  - intros status Hsel Hwr Hcall Hst.
    rewrite (build_generates host self fragment build_dir build_name ise_path
               source true w0 v_src ucf Hprep).
    cbn [bind ST_monad].
    destruct (run_ise_subprocess_failed host build_name ise_path source
                (mkWorld (resolve (cwd w0) build_dir)
                   (trace w0 ++ Expected.generated self build_dir build_name
                                  w0 v_src ucf))
                status Hsel Hwr Hcall Hst) as [script ->].
    reflexivity.
Qed.

Lemma build_run_flag_witness :
  Expected.prepared (Example.linux Example.installed 2) Example.clk_platform tt
    "build" "top" Example.home Example.top_v Example.top_ucf
  /\ fst (build (Example.linux Example.installed 2) Example.clk_platform tt
            "build" "top" "/opt/Xilinx" true false Example.home) = Ok tt
  /\ fst (build (Example.linux Example.installed 2) Example.clk_platform tt
            "build" "top" "/opt/Xilinx" true true Example.home)
     = Raise (OSError "Subprocess failed").
Proof.
  pose proof (build_run_flag (Example.linux Example.installed 2) Example.clk_platform tt
                "build" "top" "/opt/Xilinx" true Example.home
                Example.top_v Example.top_ucf
                (example_prepared Example.clk_platform Example.installed 2 eq_refl))
    as (_ & Hno & Hrun).
  split; [apply example_prepared; reflexivity |]. split.
  - rewrite Hno. reflexivity.
  - apply (Hrun 2%Z).
    + right. exists "2.0". reflexivity.
    + reflexivity.
    + reflexivity.
    + discriminate.
Defined.

(** ** The toolchain driver *)

Lemma filter_none {A} (f : A -> bool) (l : list A) :
  (forall a, In a l -> f a = false) -> filter f l = [].
Proof.
  induction l as [|a l IH]; intros H; simpl; [reflexivity |].
  rewrite (H a) by (left; reflexivity).
  apply IH. intros b Hb. apply H. now right.
Qed.

(** C8.  On a platform where the environment is sourced, an installation
    root none of whose entries is a valid version makes [_run_ise] raise
    (the maximum of an empty list) before it writes its script or spawns
    anything. *)
Theorem run_ise_no_valid_version (host : Host) (build_name ise_path : string)
    (w : World) (names : list string) :
  sys_platform host <> "win32" ->
  sys_platform host <> "cygwin" ->
  listdir host (cwd w) ise_path = Ok names ->
  (forall v, In v names -> _is_valid_version host (cwd w) ise_path v = false) ->
  _run_ise host build_name ise_path true w = (Raise ValueError, w).
Proof.
  intros Hwin Hcyg Hls Hnone.
  apply String.eqb_neq in Hwin, Hcyg.
  unfold _run_ise. rewrite Hwin, Hcyg. cbn [orb bind ST_monad].
  rewrite select_version_pure. unfold Expected.version_choice.
  rewrite Hls. cbn [bind result_monad].
  now rewrite (filter_none _ names Hnone).
Qed.

Lemma run_ise_no_valid_version_witness :
  (forall v, In v ["notaversion"; "14.7i"; "docs"] ->
     _is_valid_version (Example.linux ["notaversion"; "14.7i"; "docs"] 0)
       (cwd Example.home) "/opt/Xilinx" v = false)
  /\ _run_ise (Example.linux ["notaversion"; "14.7i"; "docs"] 0) "top" "/opt/Xilinx"
       true Example.home
     = (Raise ValueError, Example.home).
Proof.
  assert (H : forall v, In v ["notaversion"; "14.7i"; "docs"] ->
                _is_valid_version (Example.linux ["notaversion"; "14.7i"; "docs"] 0)
                  (cwd Example.home) "/opt/Xilinx" v = false).
  { intros v [<- | [<- | [<- | []]]]; reflexivity. }
  split; [exact H |].
  apply (run_ise_no_valid_version (Example.linux ["notaversion"; "14.7i"; "docs"] 0)
           "top" "/opt/Xilinx" Example.home ["notaversion"; "14.7i"; "docs"]).
  - discriminate.
  - discriminate.
  - reflexivity.
  - exact H.
Defined.

(** C1, on the code.  With the version directories 13.1, 14.7 and 2.0 next
    to a name that is no version, the driver chooses 2.0: [max] compares the
    names as strings.  The script it writes sources the settings of 2.0. *)
Theorem select_version_compares_strings :
  fst (select_version (Example.linux Example.installed 0) "/opt/Xilinx" Example.home)
    = Ok "2.0"
  /\ exists script,
       Expected.written
         (trace (snd (_run_ise (Example.linux Example.installed 0) "top" "/opt/Xilinx"
                        true Example.home)))
         (cwd Example.home) "build_top.sh" = Some script
       /\ In "source /opt/Xilinx/2.0/ISE_DS/settings64.sh" (Expected.splitlines script)
       /\ ~ In "source /opt/Xilinx/14.7/ISE_DS/settings64.sh" (Expected.splitlines script).
Proof.
  split; [reflexivity |].
  eexists. split; [vm_compute; reflexivity |].
  split.
  - vm_compute. tauto.
  - vm_compute. intros H.
    repeat (destruct H as [H | H]; [discriminate H |]). exact H.
Qed.

(** C2, on the code.  When the toolchain exits with status 1, the build
    raises, and the working directory stays the build directory: the final
    [os.chdir("..")] is never reached. *)
Theorem build_failure_stays_in_build_dir :
  fst (build (Example.linux Example.installed 1) Example.clk_platform tt
         "build" "top" "/opt/Xilinx" true true Example.home)
    = Raise (OSError "Subprocess failed")
  /\ cwd Example.home = ["home"; "user"]
  /\ cwd (snd (build (Example.linux Example.installed 1) Example.clk_platform tt
                 "build" "top" "/opt/Xilinx" true true Example.home))
     = ["home"; "user"; "build"].
Proof. repeat split; vm_compute; reflexivity. Qed.

(** C4.  The build named top of a platform without sources of its own, whose
    only signal constraint is the scalar clk on pin A8 with I/O standard
    LVCMOS33 from resource clk_pin 0, leaves a constraint file with the line
    for clk and a project file with the line for top.v. *)
Theorem build_top_end_to_end (run : bool) :
  let w := snd (build (Example.linux Example.installed 0) Example.clk_platform tt
                  "build" "top" "/opt/Xilinx" true run Example.home) in
  exists ucf prj,
    Expected.written (trace w) ["home"; "user"; "build"] "top.ucf" = Some ucf
    /\ Expected.written (trace w) ["home"; "user"; "build"] "top.prj" = Some prj
    /\ In ("NET " ++ Py.dquote ++ "clk" ++ Py.dquote
             ++ " LOC=A8 | IOSTANDARD=LVCMOS33; # clk_pin:0")
          (Expected.splitlines ucf)
    /\ In "verilog work top.v" (Expected.splitlines prj).
Proof.
  destruct run; cbv zeta; eexists; eexists;
    (split; [vm_compute; reflexivity |]);
    (split; [vm_compute; reflexivity |]);
    split; vm_compute; tauto.
Qed.

(** ** The differential clock generator *)

Lemma CRG_DS_commands (grants : list string -> string -> bool)
    (clk_name : string) (rst_name : option string) (period : option Z)
    (rst_invert : bool) (p0 p1 : CRG.PlatformState) (m : CRG.Module_) :
  CRG.CRG_DS grants clk_name rst_name period rst_invert p0 = (Ok m, p1) ->
  CRG.commands p1 =
    (CRG.commands p0 ++
       match period with
       | Some p => [(CRG.period_command p, CRG.LegP (CRG.Requested clk_name))]
       | None => []
       end)%list.
Proof.
  unfold CRG.CRG_DS, CRG.request, CRG._add_period_constraint,
    CRG.add_platform_command, raise.
  cbn [bind ret ST_monad].
  destruct (grants (CRG.requests p0) clk_name); [| discriminate].
  destruct period as [p|], rst_name as [r|], rst_invert;
    cbn [bind ret ST_monad CRG.requests CRG.commands CRG.rst CRG.new_ClockDomain];
    try (destruct (grants _ r); [| discriminate]);
    intros H; inversion H; subst; cbn [CRG.commands];
    try reflexivity; now rewrite app_nil_r.
Qed.

(** C9.  On a platform that grants the clock request: without a reset name
    the generator makes a reset-less clock domain, adds no combinatorial
    statement and requests nothing but the clock; with a reset name and
    [rst_invert] it drives the domain's reset with the negation of the
    requested reset resource; and the only platform command it adds is the
    period constraint, when a period is given, on the positive leg of the
    clock pair. *)
Theorem CRG_DS_reset_and_period (grants : list string -> string -> bool)
    (clk_name : string) (period : option Z) (p0 : CRG.PlatformState) :
  grants (CRG.requests p0) clk_name = true ->
  (forall rst_invert,
     exists m p1,
       CRG.CRG_DS grants clk_name None period rst_invert p0 = (Ok m, p1)
       /\ CRG.cd_sys m = CRG.new_ClockDomain true
       /\ CRG.rst (CRG.cd_sys m) = None
       /\ CRG.comb m = []
       /\ CRG.requests p1 = (CRG.requests p0 ++ [clk_name])%list)
  /\ (forall rst_name,
        grants (CRG.requests p0 ++ [clk_name])%list rst_name = true ->
        exists m p1,
          CRG.CRG_DS grants clk_name (Some rst_name) period true p0 = (Ok m, p1)
          /\ CRG.rst (CRG.cd_sys m) = Some CRG.DomainRst
          /\ CRG.comb m =
               [CRG.Assign CRG.DomainRst (CRG.Not (CRG.Sig (CRG.Requested rst_name)))])
  /\ (forall rst_name rst_invert m p1,
        CRG.CRG_DS grants clk_name rst_name period rst_invert p0 = (Ok m, p1) ->
        CRG.commands p1 =
          (CRG.commands p0 ++
             match period with
             | Some p => [(CRG.period_command p, CRG.LegP (CRG.Requested clk_name))]
             | None => []
             end)%list).
Proof.
  intros Hclk. split; [| split].
  - intros rst_invert.
    unfold CRG.CRG_DS, CRG.request, CRG._add_period_constraint,
      CRG.add_platform_command.
    cbn [bind ret ST_monad]. rewrite Hclk.
    destruct period; cbn [bind ret ST_monad CRG.requests CRG.commands];
      eexists; eexists; repeat split.
  - intros rst_name Hrst.
    unfold CRG.CRG_DS, CRG.request, CRG._add_period_constraint,
      CRG.add_platform_command.
    cbn [bind ret ST_monad]. rewrite Hclk.
    destruct period;
      cbn [bind ret ST_monad CRG.requests CRG.commands CRG.rst CRG.new_ClockDomain];
      rewrite Hrst; eexists; eexists; repeat split.
  - intros rst_name rst_invert m p1. apply CRG_DS_commands.
Qed.

Lemma CRG_DS_reset_and_period_witness :
  (fun _ _ => true) (CRG.requests (CRG.mkPlatformState [] [])) "clk200" = true
  /\ fst (CRG.CRG_DS (fun _ _ => true) "clk200" (Some "cpu_reset") (Some 5%Z) true
            (CRG.mkPlatformState [] []))
     = Ok (CRG.mkModule
             (CRG.mkClockDomain CRG.DomainClk (Some CRG.DomainRst))
             (CRG.Requested "clk200")
             [CRG.Instance "IBUFGDS"
                [CRG.Input "I" (CRG.Sig (CRG.LegP (CRG.Requested "clk200")));
                 CRG.Input "IB" (CRG.Sig (CRG.LegN (CRG.Requested "clk200")));
                 CRG.Output "O" CRG.DomainClk]]
             [CRG.Assign CRG.DomainRst (CRG.Not (CRG.Sig (CRG.Requested "cpu_reset")))]).
Proof.
  split; [reflexivity |].
  destruct (CRG_DS_reset_and_period (fun _ _ => true) "clk200" (Some 5%Z)
              (CRG.mkPlatformState [] []) eq_refl) as (_ & Hrst & _).
  destruct (Hrst "cpu_reset" eq_refl) as (m & p1 & Heq & _ & _).
  rewrite Heq. inversion Heq. reflexivity.
Defined.

(** * Further properties of the module *)

(** ** When the constraint file can be built *)

Lemma format_constraint_ok_well_formed (c : Constraint) (fc : option string) :
  _format_constraint c = Ok fc -> Expected.well_formed c = true.
Proof. destruct c as [[|i ids]| | | |]; simpl; intros H; (discriminate || reflexivity). Qed.

Lemma format_loop_ok_well_formed (cs : list Constraint) :
  forall acc fmt_c,
    format_loop cs acc = Ok fmt_c -> forallb Expected.well_formed cs = true.
Proof.
  induction cs as [|c cs IH]; intros acc fmt_c; simpl; [reflexivity |].
  destruct (_format_constraint c) as [fc|e] eqn:Hc; simpl; [| discriminate].
  intros H. rewrite (format_constraint_ok_well_formed c fc Hc). simpl.
  eapply IH, H.
Qed.

Lemma format_ucf_ok_well_formed signame pin others resname line :
  _format_ucf signame pin others resname = Ok line ->
  forallb Expected.well_formed others = true.
Proof.
  unfold _format_ucf.
  destruct (format_loop (Pins [pin] :: others) []) as [fmt_c|e] eqn:Hl; simpl;
    [| discriminate].
  intros _. apply format_loop_ok_well_formed in Hl. simpl in Hl. exact Hl.
Qed.

Lemma ucf_entry_ok_renderable (entry : NamedSC) (r text : string) :
  ucf_entry entry r = Ok text -> Expected.renderable entry.
Proof.
  destruct entry as [[[sig pins] others] resname]. unfold ucf_entry.
  destruct pins as [|p pins]; simpl; [discriminate |].
  destruct pins as [|q pins]; simpl.
  - destruct (_format_ucf sig p others resname) as [l|e] eqn:Hf; simpl;
      [| discriminate].
    intros _. split; [lia | eapply format_ucf_ok_well_formed, Hf].
  - destruct (_format_ucf _ p others resname) as [l|e] eqn:Hf; simpl;
      [| discriminate].
    intros _. split; [lia | eapply format_ucf_ok_well_formed, Hf].
Qed.

Lemma ucf_loop_ok_renderable (named_sc : list NamedSC) :
  forall r text,
    ucf_loop named_sc r = Ok text -> Forall Expected.renderable named_sc.
Proof.
  induction named_sc as [|entry rest IH]; intros r text; simpl; [constructor |].
  destruct (ucf_entry entry r) as [r'|e] eqn:He; simpl; [| discriminate].
  intros H. constructor.
  - eapply ucf_entry_ok_renderable, He.
  - eapply IH, H.
Qed.

(** X1.  The constraint file can be built exactly when every signal
    constraint has at least one pin and no location entry without pin
    identifiers in its constraint list; the only exception the formatter
    raises is an index error. *)
Theorem build_ucf_succeeds_iff (named_sc : list NamedSC) (named_pc : list string) :
  ((exists text, _build_ucf named_sc named_pc = Ok text)
   <-> Forall Expected.renderable named_sc)
  /\ forall e, _build_ucf named_sc named_pc = Raise e -> e = IndexError.
Proof.
  split; [split |].
  - intros [text H]. unfold _build_ucf in H.
    destruct (ucf_loop named_sc EmptyString) as [r|e] eqn:Hl; simpl in H;
      [| discriminate].
    eapply ucf_loop_ok_renderable, Hl.
  - intros H. eexists. apply build_ucf_text, H.
  - intros e. unfold _build_ucf.
    destruct (ucf_loop named_sc EmptyString) as [r|x] eqn:Hl; simpl.
    + destruct named_pc; discriminate.
    + intros H; inversion H; subst. eapply ucf_loop_raises, Hl.
Qed.

(** ** The constraint file of a longer list *)

Lemma ucf_bits_acc sig others resname (pins : list string) :
  forall i r,
    ucf_bits sig others resname i pins r =
      (t <- ucf_bits sig others resname i pins EmptyString ;; Ok (r ++ t)).
Proof.
  induction pins as [|p pins IH]; intros i r; simpl.
  - now rewrite append_nil_r.
  - destruct (_format_ucf _ p others resname) as [l|e]; simpl; [| reflexivity].
    rewrite (IH (S i) (r ++ l)), (IH (S i) l).
    destruct (ucf_bits sig others resname (S i) pins EmptyString); simpl;
      [now rewrite append_assoc | reflexivity].
Qed.

Lemma ucf_entry_acc (entry : NamedSC) (r : string) :
  ucf_entry entry r = (t <- ucf_entry entry EmptyString ;; Ok (r ++ t)).
Proof.
  destruct entry as [[[sig pins] others] resname]. unfold ucf_entry.
  destruct (1 <? length pins)%nat.
  - apply ucf_bits_acc.
  - destruct (Py.index pins 0) as [p0|e]; simpl; [| reflexivity].
    destruct (_format_ucf sig p0 others resname); reflexivity.
Qed.

Lemma ucf_loop_acc (named_sc : list NamedSC) :
  forall r,
    ucf_loop named_sc r = (t <- ucf_loop named_sc EmptyString ;; Ok (r ++ t)).
Proof.
  induction named_sc as [|entry rest IH]; intros r; simpl.
  - now rewrite append_nil_r.
  - rewrite (ucf_entry_acc entry r).
    destruct (ucf_entry entry EmptyString) as [t|e]; simpl; [| reflexivity].
    rewrite (IH (r ++ t)), (IH t).
    destruct (ucf_loop rest EmptyString); simpl;
      [now rewrite append_assoc | reflexivity].
Qed.

Lemma ucf_loop_app (l1 l2 : list NamedSC) :
  forall r,
    ucf_loop (l1 ++ l2) r = (r1 <- ucf_loop l1 r ;; ucf_loop l2 r1).
Proof.
  induction l1 as [|entry l1 IH]; intros r; simpl; [reflexivity |].
  destruct (ucf_entry entry r); simpl; [apply IH | reflexivity].
Qed.

(** X2.  The constraint file of two lists of signal constraints put
    together is the file of the first followed by the file of the second,
    the platform constraints coming last; a failure in either part is the
    failure of the whole. *)
Theorem build_ucf_app (l1 l2 : list NamedSC) (named_pc : list string) :
  _build_ucf (l1 ++ l2) named_pc =
    (r1 <- _build_ucf l1 [] ;;
     r2 <- _build_ucf l2 named_pc ;;
     Ok (r1 ++ r2)).
Proof.
  unfold _build_ucf. rewrite ucf_loop_app.
  destruct (ucf_loop l1 EmptyString) as [r1|e]; simpl; [| reflexivity].
  rewrite (ucf_loop_acc l2 r1).
  destruct (ucf_loop l2 EmptyString) as [r2|e]; simpl; [| reflexivity].
  destruct named_pc; simpl; [reflexivity | now rewrite append_assoc].
Qed.

(** ** Entries the formatter does not know *)

Lemma format_loop_filter (cs : list Constraint) :
  forall acc,
    format_loop (filter Expected.recognized cs) acc = format_loop cs acc.
Proof.
  induction cs as [|c cs IH]; intros acc; [reflexivity |].
  destruct c; simpl; try (destruct (Py.index identifiers 0); simpl);
    try apply IH; reflexivity.
Qed.

Lemma format_ucf_filter signame pin others resname :
  _format_ucf signame pin (filter Expected.recognized others) resname
  = _format_ucf signame pin others resname.
Proof.
  unfold _format_ucf.
  change (format_loop (Pins [pin] :: filter Expected.recognized others) [])
    with (format_loop (filter Expected.recognized (Pins [pin] :: others)) []).
  now rewrite format_loop_filter.
Qed.

Lemma ucf_bits_filter sig others resname (pins : list string) :
  forall i r,
    ucf_bits sig (filter Expected.recognized others) resname i pins r
    = ucf_bits sig others resname i pins r.
Proof.
  induction pins as [|p pins IH]; intros i r; simpl; [reflexivity |].
  rewrite format_ucf_filter.
  destruct (_format_ucf _ p others resname); simpl; [apply IH | reflexivity].
Qed.

Lemma ucf_entry_strip (entry : NamedSC) (r : string) :
  ucf_entry (Behaviour.strip_unrecognized entry) r = ucf_entry entry r.
Proof.
  destruct entry as [[[sig pins] others] resname]. simpl.
  destruct (1 <? length pins)%nat; [apply ucf_bits_filter |].
  destruct (Py.index pins 0) as [p0|e]; simpl; [| reflexivity].
  now rewrite format_ucf_filter.
Qed.

(** X3.  Dropping every entry that is none of the four defined variants
    from every constraint list leaves the constraint file as it is, text or
    error. *)
Theorem build_ucf_strip_unrecognized
    (named_sc : list NamedSC) (named_pc : list string) :
  _build_ucf (map Behaviour.strip_unrecognized named_sc) named_pc
  = _build_ucf named_sc named_pc.
Proof.
  unfold _build_ucf.
  assert (H : forall r, ucf_loop (map Behaviour.strip_unrecognized named_sc) r
                        = ucf_loop named_sc r).
  { induction named_sc as [|entry rest IH]; intros r; [reflexivity |].
    simpl. rewrite ucf_entry_strip.
    destruct (ucf_entry entry r); simpl; [apply IH | reflexivity]. }
  now rewrite H.
Qed.

(** ** Names of the bits of a vector *)

Lemma length_append (a b : string) :
  String.length (a ++ b) = (String.length a + String.length b)%nat.
Proof. induction a as [|x a IH]; simpl; [reflexivity | now rewrite IH]. Qed.

Lemma append_inj_r (a b c : string) : a ++ c = b ++ c -> a = b.
Proof.
  revert b. induction a as [|x a IH]; intros [|y b] H; simpl in H.
  - reflexivity.
  - apply (f_equal String.length) in H. simpl in H.
    rewrite length_append in H. lia.
  - apply (f_equal String.length) in H. simpl in H.
    rewrite length_append in H. lia.
  - inversion H; subst. f_equal. now apply IH.
Qed.

Lemma to_int_not_nil (z : Z) :
  Z.to_int z <> Decimal.Pos Decimal.Nil /\ Z.to_int z <> Decimal.Neg Decimal.Nil.
Proof.
  split; intros H; pose proof (DecimalZ.of_to z) as Hz; rewrite H in Hz;
    simpl in Hz; subst z; discriminate H.
Qed.

Lemma str_inj (a b : Z) : Py.str a = Py.str b -> a = b.
Proof.
  unfold Py.str. intros H.
  destruct (to_int_not_nil a) as [Ha1 Ha2], (to_int_not_nil b) as [Hb1 Hb2].
  pose proof (NilZero.isi _ Ha1 Ha2) as Ia.
  pose proof (NilZero.isi _ Hb1 Hb2) as Ib.
  rewrite H in Ia. rewrite Ia in Ib. inversion Ib.
  now apply DecimalZ.to_int_inj.
Qed.

(** X4.  The bits of a vector signal get pairwise different names: the
    names the formatter builds for two different indices differ. *)
Theorem vector_bit_names_differ (sig : string) (i j : nat) :
  i <> j ->
  sig ++ "(" ++ Py.str (Z.of_nat i) ++ ")" <> sig ++ "(" ++ Py.str (Z.of_nat j) ++ ")".
Proof.
  intros Hij H. apply Hij.
  apply append_inj_l in H. simpl in H. inversion H as [H'].
  apply append_inj_r in H'. apply str_inj in H'. lia.
Qed.

Lemma vector_bit_names_differ_witness :
  1%nat <> 11%nat
  /\ "d" ++ "(" ++ Py.str (Z.of_nat 1) ++ ")" <> "d" ++ "(" ++ Py.str (Z.of_nat 11) ++ ")".
Proof.
  assert (H : 1%nat <> 11%nat) by lia.
  split; [exact H |].
  exact (vector_bit_names_differ "d" 1 11 H).
Defined.

(** ** The three files of [_build_files] *)

(** X5.  [_build_files] formats the constraints before it writes anything:
    when the formatter raises, nothing is written.  Otherwise it writes the
    constraint file, the project file and the options file in this order
    and stops at the first one it cannot write: what it leaves is a prefix
    of the three writes, it returns normally exactly when all three were
    made, and otherwise it raises the I/O error of the first file that is
    missing. *)
Theorem build_files_in_order (host : Host) (device build_name : string)
    (sources : list (string * string)) (named_sc : list NamedSC)
    (named_pc : list string) (w : World) :
  match _build_ucf named_sc named_pc with
  | Raise e =>
      _build_files host device sources named_sc named_pc build_name w = (Raise e, w)
  | Ok ucf =>
      exists n,
        (n <= 3)%nat
        /\ snd (_build_files host device sources named_sc named_pc build_name w)
           = mkWorld (cwd w)
               (trace w ++ firstn n (Behaviour.file_writes (cwd w) build_name device
                                       ucf sources))
        /\ (fst (_build_files host device sources named_sc named_pc build_name w)
              = Ok tt
            <-> n = 3%nat)
        /\ forall file,
             nth_error [build_name ++ ".ucf"; build_name ++ ".prj";
                        build_name ++ ".xst"] n = Some file ->
             write_fault host (cwd w) file = true
             /\ fst (_build_files host device sources named_sc named_pc build_name w)
                = Raise (IOError file)
  end.
Proof.
  unfold _build_files, write_to_file, getcwd, emit, lift, raise.
  cbn [bind ret ST_monad].
  destruct (_build_ucf named_sc named_pc) as [ucf|e]; [| reflexivity].
  cbn [cwd trace].
  destruct (write_fault host (cwd w) (build_name ++ ".ucf")) eqn:H1.
  { exists 0%nat. cbn [firstn fst snd nth_error]. rewrite app_nil_r.
    repeat split; try lia; try discriminate; destruct w; try reflexivity;
      intros; congruence. }
  cbn [cwd trace].
  destruct (write_fault host (cwd w) (build_name ++ ".prj")) eqn:H2.
  { exists 1%nat. cbn [firstn fst snd nth_error].
    repeat split; try lia; try discriminate; intros; congruence. }
  cbn [cwd trace].
  destruct (write_fault host (cwd w) (build_name ++ ".xst")) eqn:H3.
  { exists 2%nat. cbn [firstn fst snd nth_error]. rewrite <- app_assoc.
    repeat split; try lia; try discriminate; intros; congruence. }
  exists 3%nat. cbn [firstn fst snd nth_error cwd trace]. rewrite <- !app_assoc.
  repeat split; try lia; try discriminate.
Qed.

(** ** The order [max] uses on version names *)

Lemma str_le_refl (a : string) : Behaviour.str_le a a.
Proof.
  unfold Behaviour.str_le, Py.str_gt.
  destruct (String.compare a a) eqn:H; try reflexivity.
  pose proof (String.compare_antisym a a) as Ha. rewrite H in Ha. discriminate.
Qed.

Lemma str_gt_le (a b : string) : Py.str_gt a b = true -> Behaviour.str_le b a.
Proof.
  unfold Behaviour.str_le, Py.str_gt. rewrite (String.compare_antisym b a).
  destruct (String.compare a b); simpl; (reflexivity || discriminate).
Qed.

Lemma str_le_antisym (a b : string) :
  Behaviour.str_le a b -> Behaviour.str_le b a -> a = b.
Proof.
  unfold Behaviour.str_le, Py.str_gt. rewrite (String.compare_antisym b a).
  destruct (String.compare a b) eqn:H; simpl; try discriminate.
  intros _ _. now apply String.compare_eq_iff.
Qed.

Lemma str_le_trans (a b c : string) :
  Behaviour.str_le a b -> Behaviour.str_le b c -> Behaviour.str_le a c.
Proof.
  unfold Behaviour.str_le, Py.str_gt.
  destruct (String.compare a b) eqn:Hab; try discriminate; intros _.
  - apply String.compare_eq_iff in Hab. now subst.
  - destruct (String.compare b c) eqn:Hbc; try discriminate; intros _.
    + apply String.compare_eq_iff in Hbc. subst. now rewrite Hab.
    + assert (H : String.compare a c = Lt).
      { apply String_as_OT.cmp_lt.
        eapply String_as_OT.lt_trans; apply String_as_OT.cmp_lt; eassumption. }
      now rewrite H.
Qed.

Lemma max_from_greatest (l : list string) :
  forall m,
    (Py.max_from m l = m \/ In (Py.max_from m l) l)
    /\ Behaviour.str_le m (Py.max_from m l)
    /\ forall x, In x l -> Behaviour.str_le x (Py.max_from m l).
Proof.
  induction l as [|y l IH]; intros m; simpl.
  - split; [now left |]. split; [apply str_le_refl | contradiction].
  - destruct (IH (if Py.str_gt y m then y else m)) as (Hin & Hle & Hall).
    destruct (Py.str_gt y m) eqn:Hg.
    + split; [right; destruct Hin as [-> | Hin]; [now left | now right] |].
      split.
      * eapply str_le_trans; [apply str_gt_le, Hg | exact Hle].
      * intros x [<- | Hx]; [exact Hle | now apply Hall].
    + split; [destruct Hin as [-> | Hin]; [now left | right; now right] |].
      split; [exact Hle |].
      intros x [<- | Hx]; [| now apply Hall].
      eapply str_le_trans; [exact Hg | exact Hle].
Qed.

Lemma max_greatest (l : list string) (v : string) :
  Py.max l = Ok v ->
  In v l /\ forall x, In x l -> Behaviour.str_le x v.
Proof.
  destruct l as [|m l]; simpl; [discriminate |].
  intros H; inversion H; subst; clear H.
  destruct (max_from_greatest l m) as (Hin & Hle & Hall).
  split.
  - destruct Hin as [-> | Hin]; [now left | now right].
  - intros x [<- | Hx]; [exact Hle | now apply Hall].
Qed.

Lemma max_permutation (l l' : list string) :
  Permutation l l' -> Py.max l = Py.max l'.
Proof.
  intros Hp.
  destruct l as [|a l].
  - apply Permutation_nil in Hp. now subst.
  - destruct l' as [|b l'].
    + apply Permutation_sym, Permutation_nil in Hp. discriminate.
    + destruct (Py.max (a :: l)) as [v|e] eqn:Hv; [| discriminate].
      destruct (Py.max (b :: l')) as [v'|e] eqn:Hv'; [| discriminate].
      apply max_greatest in Hv as [Hin Hall], Hv' as [Hin' Hall'].
      f_equal. apply str_le_antisym.
      * apply Hall'. eapply Permutation_in; eassumption.
      * apply Hall. eapply Permutation_in; [apply Permutation_sym |]; eassumption.
Qed.

Lemma filter_permutation {A} (f : A -> bool) (l l' : list A) :
  Permutation l l' -> Permutation (filter f l) (filter f l').
Proof.
  induction 1 as [| x l l' _ IH | x y l | l l' l'' _ IH1 _ IH2]; simpl.
  - constructor.
  - destruct (f x); [now constructor | exact IH].
  - destruct (f x), (f y); try apply Permutation_refl. constructor.
  - eapply Permutation_trans; eassumption.
Qed.

(** ** The version [_run_ise] chooses *)

(** X6.  When the installation root lists at least one valid version, the
    driver chooses a listed valid version that no other listed valid version
    exceeds in the order of strings. *)
Theorem select_version_greatest_string (host : Host) (ise_path : string)
    (w : World) (names : list string) (v0 : string) :
  listdir host (cwd w) ise_path = Ok names ->
  In v0 names ->
  _is_valid_version host (cwd w) ise_path v0 = true ->
  exists v,
    select_version host ise_path w = (Ok v, w)
    /\ In v names
    /\ _is_valid_version host (cwd w) ise_path v = true
    /\ forall v',
         In v' names -> _is_valid_version host (cwd w) ise_path v' = true ->
         Py.str_gt v' v = false.
Proof.
  intros Hls Hin Hvalid.
  rewrite select_version_pure. unfold Expected.version_choice.
  rewrite Hls. cbn [bind result_monad].
  destruct (Py.max (filter (_is_valid_version host (cwd w) ise_path) names))
    as [v|e] eqn:Hmax.
  - exists v. split; [reflexivity |].
    apply max_greatest in Hmax as [Hv Hall].
    apply filter_In in Hv as [Hv1 Hv2].
    repeat split; try assumption.
    intros v' Hv' Hvalid'. apply Hall, filter_In. now split.
  - assert (Hf : In v0 (filter (_is_valid_version host (cwd w) ise_path) names))
      by (apply filter_In; now split).
    destruct (filter (_is_valid_version host (cwd w) ise_path) names);
      [contradiction | discriminate].
Qed.

Lemma select_version_greatest_string_witness :
  In "13.1" Example.installed
  /\ exists v,
       select_version (Example.linux Example.installed 0) "/opt/Xilinx" Example.home
       = (Ok v, Example.home)
       /\ In v Example.installed.
Proof.
  assert (Hin : In "13.1" Example.installed) by (left; reflexivity).
  split; [exact Hin |].
  destruct (select_version_greatest_string (Example.linux Example.installed 0)
              "/opt/Xilinx" Example.home Example.installed "13.1"
              eq_refl Hin eq_refl) as (v & Hv & Hvin & _).
  exists v. split; [exact Hv | exact Hvin].
Defined.

(** X7.  The version chosen does not depend on the order in which the
    installation root lists its entries: two hosts that agree on which names
    are valid versions and whose listings are permutations of each other
    choose the same version, or both fail. *)
Theorem select_version_order_independent (h1 h2 : Host) (ise_path : string)
    (w : World) (l1 l2 : list string) :
  listdir h1 (cwd w) ise_path = Ok l1 ->
  listdir h2 (cwd w) ise_path = Ok l2 ->
  Permutation l1 l2 ->
  (forall v, _is_valid_version h1 (cwd w) ise_path v
             = _is_valid_version h2 (cwd w) ise_path v) ->
  select_version h1 ise_path w = select_version h2 ise_path w.
Proof.
  intros H1 H2 Hp Hvalid.
  rewrite !select_version_pure. unfold Expected.version_choice.
  rewrite H1, H2. cbn [bind result_monad]. f_equal.
  rewrite (filter_ext _ _ Hvalid l1).
  apply max_permutation, filter_permutation, Hp.
Qed.

Lemma select_version_order_independent_witness :
  Permutation ["13.1"; "14.7"] ["14.7"; "13.1"]
  /\ select_version (Example.linux ["13.1"; "14.7"] 0) "/opt/Xilinx" Example.home
     = select_version (Example.linux ["14.7"; "13.1"] 0) "/opt/Xilinx" Example.home.
Proof.
  assert (Hp : Permutation ["13.1"; "14.7"] ["14.7"; "13.1"]) by constructor.
  split; [exact Hp |].
  exact (select_version_order_independent (Example.linux ["13.1"; "14.7"] 0)
           (Example.linux ["14.7"; "13.1"] 0) "/opt/Xilinx" Example.home
           ["13.1"; "14.7"] ["14.7"; "13.1"] eq_refl eq_refl Hp (fun _ => eq_refl)).
Defined.

(** ** What [_run_ise] writes and runs *)

Lemma effective_source_off (host : Host) (source : bool) :
  source = false \/ sys_platform host = "win32" \/ sys_platform host = "cygwin" ->
  Expected.effective_source host source = false.
Proof.
  unfold Expected.effective_source.
  intros [-> | [-> | ->]]; simpl; [| reflexivity | reflexivity].
  now destruct (orb _ _).
Qed.

(** X8.  When sourcing is switched off, or on win32 and cygwin whatever the
    caller asked for, the script is the header followed by the five
    toolchain commands, without a source line; the installation root is not
    looked at.  The driver returns normally for exit status 0 and raises for
    any other. *)
Theorem run_ise_without_source (host : Host) (build_name ise_path : string)
    (source : bool) (w : World) (status : Z) :
  source = false \/ sys_platform host = "win32" \/ sys_platform host = "cygwin" ->
  write_fault host (cwd w) ("build_" ++ build_name ++ ".sh") = false ->
  subprocess_call host (cwd w) ["bash"; "build_" ++ build_name ++ ".sh"] = Ok status ->
  _run_ise host build_name ise_path source w =
    ((if (status =? 0)%Z then Ok tt else Raise (OSError "Subprocess failed")),
     mkWorld (cwd w)
       (trace w ++ [WriteFile (cwd w) ("build_" ++ build_name ++ ".sh")
                      (script_header ++ script_pipeline build_name);
                    Spawn (cwd w) ["bash"; "build_" ++ build_name ++ ".sh"]])).
Proof.
  intros Hoff Hwr Hcall. apply (effective_source_off host) in Hoff.
  unfold _run_ise. fold (Expected.effective_source host source). rewrite Hoff.
  unfold write_to_file, getcwd, emit, lift, raise. cbn [bind ret ST_monad cwd trace].
  rewrite Hwr. cbn [cwd trace]. rewrite Hcall, <- app_assoc.
  now destruct (status =? 0)%Z.
Qed.

Lemma run_ise_without_source_witness :
  (true = false \/ sys_platform (Behaviour.windows [] 0) = "win32"
   \/ sys_platform (Behaviour.windows [] 0) = "cygwin")
  /\ fst (_run_ise (Behaviour.windows [] 0) "top" "C:/Xilinx" true Example.home) = Ok tt.
Proof.
  split; [right; left; reflexivity |].
  rewrite (run_ise_without_source (Behaviour.windows [] 0) "top" "C:/Xilinx" true
             Example.home 0%Z (or_intror (or_introl eq_refl)) eq_refl eq_refl).
  reflexivity.
Defined.

(** X9.  When sourcing is in effect and a version v was chosen, the script
    is the header, the line that sources
    ise_path/v/ISE_DS/settings<bits>.sh with bits eight times the pointer
    size, and the five toolchain commands; it is written and then run with
    bash in the working directory. *)
Theorem run_ise_with_source (host : Host) (build_name ise_path v : string)
    (w : World) (status : Z) :
  sys_platform host <> "win32" ->
  sys_platform host <> "cygwin" ->
  select_version host ise_path w = (Ok v, w) ->
  write_fault host (cwd w) ("build_" ++ build_name ++ ".sh") = false ->
  subprocess_call host (cwd w) ["bash"; "build_" ++ build_name ++ ".sh"] = Ok status ->
  _run_ise host build_name ise_path true w =
    ((if (status =? 0)%Z then Ok tt else Raise (OSError "Subprocess failed")),
     mkWorld (cwd w)
       (trace w ++ [WriteFile (cwd w) ("build_" ++ build_name ++ ".sh")
                      ((script_header ++ "source " ++ ise_path ++ "/" ++ v
                          ++ "/ISE_DS/settings" ++ Py.str (calcsize_P host * 8)
                          ++ ".sh" ++ Py.nl)
                       ++ script_pipeline build_name);
                    Spawn (cwd w) ["bash"; "build_" ++ build_name ++ ".sh"]])).
Proof.
  intros Hwin Hcyg Hsel Hwr Hcall.
  apply String.eqb_neq in Hwin, Hcyg.
  unfold _run_ise. rewrite Hwin, Hcyg. cbn [orb bind ST_monad]. rewrite Hsel.
  unfold write_to_file, getcwd, emit, lift, raise, settings_file.
  cbn [bind ret ST_monad cwd trace].
  rewrite Hwr. cbn [cwd trace]. rewrite Hcall, <- app_assoc.
  cbn [app]. rewrite !append_assoc.
  now destruct (status =? 0)%Z.
Qed.

Lemma run_ise_with_source_witness :
  select_version (Example.linux ["13.1"; "14.7"] 0) "/opt/Xilinx" Example.home
    = (Ok "14.7", Example.home)
  /\ Expected.written
       (trace (snd (_run_ise (Example.linux ["13.1"; "14.7"] 0) "top" "/opt/Xilinx"
                      true Example.home)))
       ["home"; "user"] "build_top.sh"
     = Some (Behaviour.sourced_script (Example.linux ["13.1"; "14.7"] 0) "top"
               "/opt/Xilinx" "14.7").
Proof.
  split; [reflexivity |].
  rewrite (run_ise_with_source (Example.linux ["13.1"; "14.7"] 0) "top" "/opt/Xilinx"
             "14.7" Example.home 0%Z).
  - reflexivity.
  - discriminate.
  - discriminate.
  - reflexivity.
  - reflexivity.
  - reflexivity.
Defined.

(** X10.  When the script cannot be written, [_run_ise] raises and leaves
    the world as it found it: nothing is spawned. *)
Theorem run_ise_script_unwritable (host : Host) (build_name ise_path : string)
    (source : bool) (w : World) :
  write_fault host (cwd w) ("build_" ++ build_name ++ ".sh") = true ->
  exists e, _run_ise host build_name ise_path source w = (Raise e, w).
Proof.
  intros Hwr. unfold _run_ise.
  fold (Expected.effective_source host source).
  destruct (Expected.effective_source host source).
  - cbn [bind ret ST_monad]. rewrite select_version_pure.
    destruct (Expected.version_choice host (cwd w) ise_path) as [v|e].
    + unfold write_to_file, getcwd, emit, lift, raise.
      cbn [bind ret ST_monad cwd trace]. rewrite Hwr. eexists. reflexivity.
    + eexists. reflexivity.
  - unfold write_to_file, getcwd, emit, lift, raise.
    cbn [bind ret ST_monad cwd trace]. rewrite Hwr. eexists. reflexivity.
Qed.

Lemma run_ise_script_unwritable_witness :
  write_fault (Behaviour.read_only "build_top.sh") (cwd Example.home)
    ("build_" ++ "top" ++ ".sh") = true
  /\ _run_ise (Behaviour.read_only "build_top.sh") "top" "/opt/Xilinx" true Example.home
     = (Raise (IOError "build_top.sh"), Example.home).
Proof.
  split; [reflexivity |].
  destruct (run_ise_script_unwritable (Behaviour.read_only "build_top.sh") "top"
              "/opt/Xilinx" true Example.home eq_refl) as [e He].
  rewrite He. inversion He. reflexivity.
Defined.

(** X11.  Whatever happens, [_run_ise] stays in its working directory and
    either adds nothing to what was done or adds the write of its script
    followed by one run of bash on it; it returns normally only when that
    run took place and exited with status 0. *)
Theorem run_ise_shape (host : Host) (build_name ise_path : string)
    (source : bool) (w : World) :
  exists evs,
    snd (_run_ise host build_name ise_path source w) = mkWorld (cwd w) (trace w ++ evs)
    /\ (evs = []
        \/ exists script,
             evs = [WriteFile (cwd w) ("build_" ++ build_name ++ ".sh") script;
                    Spawn (cwd w) ["bash"; "build_" ++ build_name ++ ".sh"]])
    /\ (fst (_run_ise host build_name ise_path source w) = Ok tt ->
        evs <> []
        /\ subprocess_call host (cwd w) ["bash"; "build_" ++ build_name ++ ".sh"]
           = Ok 0%Z).
Proof.
  assert (Hnil : mkWorld (cwd w) (trace w ++ []) = w)
    by (rewrite app_nil_r; now destruct w).
  assert (Hw : forall script0,
    exists evs,
      snd ((write_to_file host ("build_" ++ build_name ++ ".sh") script0 ;;;
            d <- getcwd ;;
            emit (Spawn d ["bash"; "build_" ++ build_name ++ ".sh"]) ;;;
            r <- lift (subprocess_call host d ["bash"; "build_" ++ build_name ++ ".sh"]) ;;
            if (r =? 0)%Z then ret tt else raise (OSError "Subprocess failed")) w)
        = mkWorld (cwd w) (trace w ++ evs)
      /\ (evs = []
          \/ exists script,
               evs = [WriteFile (cwd w) ("build_" ++ build_name ++ ".sh") script;
                      Spawn (cwd w) ["bash"; "build_" ++ build_name ++ ".sh"]])
      /\ (fst ((write_to_file host ("build_" ++ build_name ++ ".sh") script0 ;;;
                d <- getcwd ;;
                emit (Spawn d ["bash"; "build_" ++ build_name ++ ".sh"]) ;;;
                r <- lift (subprocess_call host d ["bash"; "build_" ++ build_name ++ ".sh"]) ;;
                if (r =? 0)%Z then ret tt else raise (OSError "Subprocess failed")) w)
            = Ok tt ->
          evs <> []
          /\ subprocess_call host (cwd w) ["bash"; "build_" ++ build_name ++ ".sh"]
             = Ok 0%Z)).
  { intros script0.
    unfold write_to_file, getcwd, emit, lift, raise. cbn [bind ret ST_monad cwd trace].
    destruct (write_fault host (cwd w) _).
    - exists []. rewrite Hnil. split; [reflexivity |]. split; [now left | discriminate].
    - cbn [cwd trace]. rewrite <- app_assoc. cbn [app].
      eexists. split; [| split].
      + destruct (subprocess_call host (cwd w) _) as [r|e];
          [destruct (r =? 0)%Z |]; reflexivity.
      + right. eexists. reflexivity.
      + destruct (subprocess_call host (cwd w) _) as [r|e]; [| discriminate].
        destruct (r =? 0)%Z eqn:Hr; [| discriminate].
        intros _. split; [discriminate |]. apply Z.eqb_eq in Hr. now subst. }
  unfold _run_ise.
  fold (Expected.effective_source host source).
  destruct (Expected.effective_source host source).
  - cbn [bind ret ST_monad]. rewrite select_version_pure.
    destruct (Expected.version_choice host (cwd w) ise_path) as [v|e].
    + apply Hw.
    + exists []. rewrite Hnil. split; [reflexivity |]. split; [now left | discriminate].
  - apply Hw.
Qed.

(** ** How far a build gets *)




(** ** Entering a plain directory and leaving it *)





(** ** A complete build *)

Lemma written_generated {Fragment} (self : Platform Fragment)
    (build_dir build_name : string) (w0 : World) (v_src ucf : string) :
  let t := Expected.generated self build_dir build_name w0 v_src ucf in
  let d := resolve (cwd w0) build_dir in
  Expected.written t d (build_name ++ ".v") = Some v_src
  /\ Expected.written t d (build_name ++ ".ucf") = Some ucf
  /\ Expected.written t d (build_name ++ ".xst")
     = Some (xst_contents build_name (device self)).
Proof.
  unfold Expected.generated. cbn [Expected.written]. repeat split.
  - rewrite (write_to_other _ _ _ (build_name ++ ".xst"))
      by (apply extension_differs; discriminate).
    rewrite (write_to_other _ _ _ (build_name ++ ".prj"))
      by (apply extension_differs; discriminate).
    rewrite (write_to_other _ _ _ (build_name ++ ".ucf"))
      by (apply extension_differs; discriminate).
    now rewrite write_to_same.
  - rewrite (write_to_other _ _ _ (build_name ++ ".xst"))
      by (apply extension_differs; discriminate).
    rewrite (write_to_other _ _ _ (build_name ++ ".prj"))
      by (apply extension_differs; discriminate).
    now rewrite write_to_same.
  - now rewrite write_to_same.
Qed.

Lemma chdir_parent (w : World) :
  chdir ".." w = (Ok tt, mkWorld (removelast (cwd w)) (trace w)).
Proof. reflexivity. Qed.

(** X14.  After a build with [run] that returns normally, each of the five
    files of the build directory holds what was generated for it (none was
    overwritten by a later one), bash was run exactly once, on the script,
    in the build directory, and it exited with status 0. *)
Theorem build_complete {Fragment} (host : Host) (self : Platform Fragment)
    (fragment : Fragment) (build_dir build_name ise_path : string)
    (source : bool) (w0 : World) (v_src ucf : string) :
  Expected.prepared host self fragment build_dir build_name w0 v_src ucf ->
  fst (build host self fragment build_dir build_name ise_path source true w0) = Ok tt ->
  let d := resolve (cwd w0) build_dir in
  let t := trace (snd (build host self fragment build_dir build_name ise_path
                         source true w0)) in
  Expected.written t d (build_name ++ ".v") = Some v_src
  /\ Expected.written t d (build_name ++ ".ucf") = Some ucf
  /\ Expected.written t d (build_name ++ ".prj")
     = Some (prj_loop (sources self ++ [(build_name ++ ".v", "verilog")]) EmptyString)
  /\ Expected.written t d (build_name ++ ".xst")
     = Some (xst_contents build_name (device self))
  /\ (exists script,
        Expected.written t d ("build_" ++ build_name ++ ".sh") = Some script)
  /\ filter Expected.is_spawn t
     = app (filter Expected.is_spawn (trace w0))
           [Spawn d ["bash"; "build_" ++ build_name ++ ".sh"]]
  /\ subprocess_call host d ["bash"; "build_" ++ build_name ++ ".sh"] = Ok 0%Z.
Proof.
  intros Hprep Hok d t. subst d t.
  rewrite (build_generates host self fragment build_dir build_name ise_path
             source true w0 v_src ucf Hprep) in *.
  set (w1 := mkWorld (resolve (cwd w0) build_dir)
               (trace w0 ++ Expected.generated self build_dir build_name w0 v_src ucf))
    in *.
  destruct (run_ise_shape host build_name ise_path source w1)
    as (evs & Hsnd & Hevs & Hret).
  cbn [bind ST_monad] in *.
  destruct (_run_ise host build_name ise_path source w1) as [[[]|e] w2];
    [| discriminate Hok].
  cbn [fst snd] in *. subst w2.
  destruct (Hret eq_refl) as [Hne Hcall].
  destruct Hevs as [-> | [script ->]]; [contradiction |].
  subst w1. rewrite chdir_parent in *. cbn [fst snd trace cwd] in *.
  destruct (written_generated self build_dir build_name w0 v_src ucf)
    as (Hv & Hu & Hx).
  pose proof (written_generated_prj self build_dir build_name w0 v_src ucf) as Hp.
  assert (Hs : forall ext, In ext [".v"; ".ucf"; ".prj"; ".xst"] ->
    Expected.written
      [WriteFile (resolve (cwd w0) build_dir) ("build_" ++ build_name ++ ".sh") script;
       Spawn (resolve (cwd w0) build_dir) ["bash"; "build_" ++ build_name ++ ".sh"]]
      (resolve (cwd w0) build_dir) (build_name ++ ext) = None).
  { intros ext Hext. cbn [Expected.written].
    change (Expected.write_to (resolve (cwd w0) build_dir) (build_name ++ ext)
              (Spawn (resolve (cwd w0) build_dir)
                 ["bash"; "build_" ++ build_name ++ ".sh"]))
      with (@None string).
    apply write_to_other, script_name_differs, Hext. }
  repeat split.
  - rewrite written_app, Hs by (simpl; tauto). now rewrite written_app, Hv.
  - rewrite written_app, Hs by (simpl; tauto). now rewrite written_app, Hu.
  - rewrite written_app, Hs by (simpl; tauto). rewrite written_app, Hp.
    now rewrite prj_loop_lines.
  - rewrite written_app, Hs by (simpl; tauto). now rewrite written_app, Hx.
  - exists script. rewrite written_app. cbn [Expected.written].
    change (Expected.write_to (resolve (cwd w0) build_dir)
              ("build_" ++ build_name ++ ".sh")
              (Spawn (resolve (cwd w0) build_dir)
                 ["bash"; "build_" ++ build_name ++ ".sh"]))
      with (@None string).
    now rewrite write_to_same.
  - rewrite !filter_app. simpl. now rewrite app_nil_r.
  - exact Hcall.
Qed.

Lemma build_complete_witness :
  Expected.prepared (Example.linux Example.installed 0) Example.clk_platform tt
    "build" "top" Example.home Example.top_v Example.top_ucf
  /\ fst (build (Example.linux Example.installed 0) Example.clk_platform tt
            "build" "top" "/opt/Xilinx" true true Example.home) = Ok tt
  /\ Expected.written
       (trace (snd (build (Example.linux Example.installed 0) Example.clk_platform tt
                      "build" "top" "/opt/Xilinx" true true Example.home)))
       (resolve (cwd Example.home) "build") ("top" ++ ".ucf")
     = Some Example.top_ucf.
Proof.
  split; [apply example_prepared; reflexivity |]. split; [reflexivity |].
  exact (proj1 (proj2
    (build_complete (Example.linux Example.installed 0) Example.clk_platform tt
       "build" "top" "/opt/Xilinx" true Example.home Example.top_v Example.top_ucf
       (example_prepared Example.clk_platform Example.installed 0 eq_refl) eq_refl))).
Defined.

(** X15.  A build keeps what it did before a failure.  When the elaborator
    raises, the build directory was made and entered and nothing was
    written; when the constraints cannot be formatted, the hardware
    description is already written and the three other files are not. *)
Theorem build_early_failure {Fragment} (host : Host) (self : Platform Fragment)
    (fragment : Fragment) (build_dir build_name ise_path : string)
    (source run : bool) (w0 : World) (e : Exn) :
  build_dir <> EmptyString ->
  (get_verilog self fragment = Raise e ->
   build host self fragment build_dir build_name ise_path source run w0
   = (Raise e,
      mkWorld (resolve (cwd w0) build_dir) (trace w0 ++ [Mkdir (cwd w0) build_dir])))
  /\ (forall v_src named_sc named_pc,
        get_verilog self fragment = Ok (v_src, named_sc, named_pc) ->
        write_fault host (resolve (cwd w0) build_dir) (build_name ++ ".v") = false ->
        _build_ucf named_sc named_pc = Raise e ->
        build host self fragment build_dir build_name ise_path source run w0
        = (Raise e,
           mkWorld (resolve (cwd w0) build_dir)
             (trace w0 ++ [Mkdir (cwd w0) build_dir;
                           WriteFile (resolve (cwd w0) build_dir)
                             (build_name ++ ".v") v_src]))).
Proof.
  intros Hdir. apply String.eqb_neq in Hdir. split.
  - intros Hv. unfold build, mkdir_noerror, chdir, getcwd, emit, lift.
    cbn [bind ret ST_monad cwd trace]. now rewrite Hdir, Hv.
  - intros v_src named_sc named_pc Hv Hw Hucf.
    unfold build, mkdir_noerror, chdir, _build_files, write_to_file, getcwd, emit,
      lift, raise.
    cbn [bind ret ST_monad cwd trace]. rewrite Hdir, Hv. cbn [cwd trace].
    rewrite Hw. cbn [cwd trace]. rewrite Hucf, <- app_assoc. reflexivity.
Qed.

Lemma build_early_failure_witness :
  "build" <> EmptyString
  /\ build (Example.linux Example.installed 0) Behaviour.broken_platform tt
       "build" "top" "/opt/Xilinx" true true Example.home
     = (Raise (Raised "elaboration"),
        mkWorld ["home"; "user"; "build"] [Mkdir ["home"; "user"] "build"])
  /\ build (Example.linux Example.installed 0) Behaviour.pinless_platform tt
       "build" "top" "/opt/Xilinx" true true Example.home
     = (Raise IndexError,
        mkWorld ["home"; "user"; "build"]
          [Mkdir ["home"; "user"] "build";
           WriteFile ["home"; "user"; "build"] "top.v" Example.top_v]).
Proof.
  assert (H : "build" <> EmptyString) by discriminate.
  split; [exact H |]. split.
  - exact (proj1 (build_early_failure (Example.linux Example.installed 0)
                    Behaviour.broken_platform tt "build" "top" "/opt/Xilinx" true true
                    Example.home (Raised "elaboration") H) eq_refl).
  - exact (proj2 (build_early_failure (Example.linux Example.installed 0)
                    Behaviour.pinless_platform tt "build" "top" "/opt/Xilinx" true true
                    Example.home IndexError H)
             Example.top_v [Example.no_pin_entry] [] eq_refl eq_refl eq_refl).
Defined.

(** ** The command-line entry point *)

(** X16.  The run switch can only switch off: when the namespace says
    [no_run], or the caller already passed [run=False], the build spawns
    nothing, whatever else is given. *)
Theorem build_arg_ns_no_run {Fragment} (host : Host) (self : Platform Fragment)
    (ns : Namespace) (fragment : Fragment) (kwargs : Kwargs) (w0 : World) :
  no_run ns = true \/ kw_run kwargs = Some false ->
  filter Expected.is_spawn (trace (snd (build_arg_ns host self ns fragment kwargs w0)))
  = filter Expected.is_spawn (trace w0).
Proof.
  intros H. unfold build_arg_ns, build_kwargs. cbn [kw_run kw_source kw_build_dir
    kw_build_name kw_ise_path].
  assert (Hrun : keyword (set_false (no_run ns) (kw_run kwargs)) true = false).
  { unfold set_false. destruct H as [-> | H]; [reflexivity |].
    rewrite H. now destruct (no_run ns). }
  rewrite Hrun. apply build_norun_spawns_nothing.
Qed.

Lemma build_arg_ns_no_run_witness :
  (no_run (mkNamespace None (Some "top") None false true) = true
   \/ kw_run (mkKwargs None None None None (Some true)) = Some false)
  /\ filter Expected.is_spawn
       (trace (snd (build_arg_ns (Example.linux Example.installed 0)
                      Example.clk_platform
                      (mkNamespace None (Some "top") None false true) tt
                      (mkKwargs None None None None (Some true)) Example.home)))
     = filter Expected.is_spawn (trace Example.home).
Proof.
  split; [left; reflexivity |].
  exact (build_arg_ns_no_run (Example.linux Example.installed 0) Example.clk_platform
           (mkNamespace None (Some "top") None false true) tt
           (mkKwargs None None None None (Some true)) Example.home
           (or_introl eq_refl)).
Defined.

(** X17.  The namespace takes precedence over the caller's keyword
    arguments: two calls whose keyword arguments differ only where the
    namespace gives a value (or sets the switch) do the same. *)
Theorem build_arg_ns_precedence {Fragment} (host : Host) (self : Platform Fragment)
    (ns : Namespace) (fragment : Fragment) (k1 k2 : Kwargs) :
  (ns_build_dir ns = None -> kw_build_dir k1 = kw_build_dir k2) ->
  (ns_build_name ns = None -> kw_build_name k1 = kw_build_name k2) ->
  (ns_ise_path ns = None -> kw_ise_path k1 = kw_ise_path k2) ->
  (no_source ns = false -> kw_source k1 = kw_source k2) ->
  (no_run ns = false -> kw_run k1 = kw_run k2) ->
  build_arg_ns host self ns fragment k1 = build_arg_ns host self ns fragment k2.
Proof.
  intros Hd Hn Hp Hs Hr. unfold build_arg_ns. f_equal.
  cbn [kw_run kw_source kw_build_dir kw_build_name kw_ise_path].
  unfold set_attr, set_false.
  destruct (ns_build_dir ns), (ns_build_name ns), (ns_ise_path ns),
    (no_source ns), (no_run ns);
    repeat match goal with
           | H : ?a = ?a -> _ |- _ => specialize (H eq_refl)
           end;
    congruence.
Qed.

Lemma build_arg_ns_precedence_witness :
  (ns_build_dir (mkNamespace (Some "out") None None true false) = None ->
   kw_build_dir (mkKwargs (Some "a") None None (Some true) None)
   = kw_build_dir (mkKwargs (Some "b") None None None None))
  /\ build_arg_ns (Example.linux Example.installed 0) Example.clk_platform
       (mkNamespace (Some "out") None None true false) tt
       (mkKwargs (Some "a") None None (Some true) None)
     = build_arg_ns (Example.linux Example.installed 0) Example.clk_platform
         (mkNamespace (Some "out") None None true false) tt
         (mkKwargs (Some "b") None None None None).
Proof.
  split; [discriminate |].
  apply (build_arg_ns_precedence (Example.linux Example.installed 0)
           Example.clk_platform (mkNamespace (Some "out") None None true false) tt
           (mkKwargs (Some "a") None None (Some true) None)
           (mkKwargs (Some "b") None None None None));
    (discriminate || reflexivity).
Defined.

(** ** The special overrides of [get_verilog] *)

Lemma dict_get_set {K V} (eq_dec : forall a b : K, {a = b} + {a <> b})
    (d : list (K * V)) (k k' : K) (v : V) :
  PyDict.get eq_dec (PyDict.set eq_dec d k v) k'
  = if eq_dec k k' then Some v else PyDict.get eq_dec d k'.
Proof.
  induction d as [|[k0 v0] d IH]; simpl.
  - reflexivity.
  - destruct (eq_dec k0 k) as [-> | Hne]; simpl.
    + destruct (eq_dec k k'); reflexivity.
    + destruct (eq_dec k0 k') as [-> | Hne'].
      * destruct (eq_dec k k') as [-> | _]; [contradiction | reflexivity].
      * exact IH.
Qed.

Lemma dict_get_none {K V} (eq_dec : forall a b : K, {a = b} + {a <> b})
    (d : list (K * V)) (k : K) :
  ~ In k (map fst d) -> PyDict.get eq_dec d k = None.
Proof.
  induction d as [|[k0 v0] d IH]; simpl; [reflexivity |].
  intros H. destruct (eq_dec k0 k) as [-> | _]; [exfalso; apply H; now left |].
  apply IH. intros Hin. apply H. now right.
Qed.

Lemma dict_get_update {K V} (eq_dec : forall a b : K, {a = b} + {a <> b})
    (other : list (K * V)) :
  NoDup (map fst other) ->
  forall d k,
    PyDict.get eq_dec (PyDict.update eq_dec d other) k
    = match PyDict.get eq_dec other k with
      | Some v => Some v
      | None => PyDict.get eq_dec d k
      end.
Proof.
  unfold PyDict.update.
  induction other as [|[k1 v1] other IH]; intros Hnd d k; simpl; [reflexivity |].
  inversion Hnd as [|? ? Hnotin Hnd']; subst.
  rewrite (IH Hnd'). cbn [fst snd]. rewrite dict_get_set.
  destruct (eq_dec k1 k) as [-> | Hne]; [| reflexivity].
  now rewrite (dict_get_none eq_dec other k Hnotin).
Qed.

(** X18.  In the dictionary handed to the elaborator, a special class the
    caller overrides maps to the caller's lowering; otherwise the
    no-retiming and multi-register classes map to their Xilinx lowerings,
    and any other class is absent. *)
Theorem get_verilog_so_lookup (special_overrides : list (SpecialClass * Lowering))
    (k : SpecialClass) :
  NoDup (map fst special_overrides) ->
  PyDict.get SpecialClass_eq_dec (get_verilog_so special_overrides) k
  = match PyDict.get SpecialClass_eq_dec special_overrides k with
    | Some lowering => Some lowering
    | None =>
        match k with
        | NoRetiming => Some XilinxNoRetiming
        | MultiReg => Some XilinxMultiReg
        | OtherSpecial _ => None
        end
    end.
Proof.
  intros Hnd. unfold get_verilog_so.
  rewrite (dict_get_update SpecialClass_eq_dec special_overrides Hnd).
  destruct (PyDict.get SpecialClass_eq_dec special_overrides k); [reflexivity |].
  destruct k; reflexivity.
Qed.

Lemma get_verilog_so_lookup_witness :
  NoDup (map fst [(MultiReg, CallerLowering "MyMultiReg");
                  (OtherSpecial "Tristate", CallerLowering "XilinxTristate")])
  /\ PyDict.get SpecialClass_eq_dec
       (get_verilog_so [(MultiReg, CallerLowering "MyMultiReg");
                        (OtherSpecial "Tristate", CallerLowering "XilinxTristate")])
       MultiReg
     = Some (CallerLowering "MyMultiReg").
Proof.
  assert (H : NoDup (map fst [(MultiReg, CallerLowering "MyMultiReg");
                              (OtherSpecial "Tristate", CallerLowering "XilinxTristate")])).
  { simpl. constructor; [intros [H | []]; discriminate H |].
    constructor; [intros [] | constructor]. }
  split; [exact H |].
  exact (get_verilog_so_lookup _ MultiReg H).
Defined.

(** ** The clock generators *)

(** X19.  A differential clock generator whose requests are granted takes
    the clock resource first and the reset resource second, keeps the
    requested pair as its clock, feeds the positive and negative leg of the
    pair into one IBUFGDS whose output is the domain's clock, and drives the
    domain's reset from the reset resource, negated exactly when
    [rst_invert] is set. *)
Theorem CRG_DS_with_reset (grants : list string -> string -> bool)
    (clk_name rst_name : string) (period : option Z) (rst_invert : bool)
    (p0 : CRG.PlatformState) :
  grants (CRG.requests p0) clk_name = true ->
  grants (CRG.requests p0 ++ [clk_name])%list rst_name = true ->
  CRG.CRG_DS grants clk_name (Some rst_name) period rst_invert p0 =
    (Ok (CRG.mkModule
           (CRG.mkClockDomain CRG.DomainClk (Some CRG.DomainRst))
           (CRG.Requested clk_name)
           [CRG.Instance "IBUFGDS"
              [CRG.Input "I" (CRG.Sig (CRG.LegP (CRG.Requested clk_name)));
               CRG.Input "IB" (CRG.Sig (CRG.LegN (CRG.Requested clk_name)));
               CRG.Output "O" CRG.DomainClk]]
           [CRG.Assign CRG.DomainRst
              (if rst_invert then CRG.Not (CRG.Sig (CRG.Requested rst_name))
               else CRG.Sig (CRG.Requested rst_name))]),
     CRG.mkPlatformState
       (CRG.requests p0 ++ [clk_name; rst_name])
       (CRG.commands p0 ++
          match period with
          | Some p => [(CRG.period_command p, CRG.LegP (CRG.Requested clk_name))]
          | None => []
          end)).
Proof.
  intros Hclk Hrst.
  unfold CRG.CRG_DS, CRG.request, CRG._add_period_constraint,
    CRG.add_platform_command.
  cbn [bind ret ST_monad]. rewrite Hclk.
  destruct period, rst_invert;
    cbn [bind ret ST_monad CRG.requests CRG.commands CRG.rst CRG.new_ClockDomain];
    rewrite Hrst, <- ?app_assoc, ?app_nil_r; reflexivity.
Qed.

Lemma CRG_DS_with_reset_witness :
  (fun _ _ => true) (CRG.requests (CRG.mkPlatformState [] [])) "clk200" = true
  /\ CRG.requests
       (snd (CRG.CRG_DS (fun _ _ => true) "clk200" (Some "cpu_reset") None false
               (CRG.mkPlatformState [] [])))
     = ["clk200"; "cpu_reset"].
Proof.
  split; [reflexivity |].
  rewrite (CRG_DS_with_reset (fun _ _ => true) "clk200" "cpu_reset" None false
             (CRG.mkPlatformState [] []) eq_refl eq_refl).
  reflexivity.
Defined.

(** X20.  A refused request ends the generator with the platform's error
    and nothing is taken back: when the clock is refused the platform is as
    before; when the reset is refused the clock resource stays taken and the
    period constraint stays added. *)
Theorem CRG_DS_refused (grants : list string -> string -> bool)
    (clk_name : string) (rst_name : option string) (period : option Z)
    (rst_invert : bool) (p0 : CRG.PlatformState) :
  (grants (CRG.requests p0) clk_name = false ->
   CRG.CRG_DS grants clk_name rst_name period rst_invert p0
   = (Raise (ConstraintError clk_name), p0))
  /\ (forall rst,
        rst_name = Some rst ->
        grants (CRG.requests p0) clk_name = true ->
        grants (CRG.requests p0 ++ [clk_name])%list rst = false ->
        CRG.CRG_DS grants clk_name rst_name period rst_invert p0
        = (Raise (ConstraintError rst),
           CRG.mkPlatformState
             (CRG.requests p0 ++ [clk_name])
             (CRG.commands p0 ++
                match period with
                | Some p => [(CRG.period_command p, CRG.LegP (CRG.Requested clk_name))]
                | None => []
                end))).
Proof.
  split.
  - intros Hclk. unfold CRG.CRG_DS, CRG.request. cbn [bind ret ST_monad].
    now rewrite Hclk.
  - intros rst -> Hclk Hrst.
    unfold CRG.CRG_DS, CRG.request, CRG._add_period_constraint,
      CRG.add_platform_command.
    cbn [bind ret ST_monad]. rewrite Hclk.
    destruct period, rst_invert;
      cbn [bind ret ST_monad CRG.requests CRG.commands CRG.rst CRG.new_ClockDomain];
      rewrite Hrst, ?app_nil_r; reflexivity.
Qed.

Lemma CRG_DS_refused_witness :
  (fun (taken : list string) (name : string) => String.eqb name "clk200")
    (CRG.requests (CRG.mkPlatformState [] [])) "clk200" = true
  /\ CRG.CRG_DS (fun _ name => String.eqb name "clk200") "clk200" (Some "cpu_reset")
       (Some 5%Z) true (CRG.mkPlatformState [] [])
     = (Raise (ConstraintError "cpu_reset"),
        CRG.mkPlatformState ["clk200"]
          [(CRG.period_command 5, CRG.LegP (CRG.Requested "clk200"))]).
Proof.
  split; [reflexivity |].
  exact (proj2 (CRG_DS_refused (fun _ name => String.eqb name "clk200") "clk200"
                  (Some "cpu_reset") (Some 5%Z) true (CRG.mkPlatformState [] []))
           "cpu_reset" eq_refl eq_refl eq_refl).
Defined.

(** X21.  The single-ended generator is the simple generator plus the
    period constraint: it returns the module the simple generator built,
    unchanged; when a period is given it adds one platform command, the
    period constraint on that module's clock; and when the simple generator
    raises, it adds nothing. *)
Theorem CRG_SE_adds_period
    (SimpleCRG : string -> option string -> bool -> ST CRG.PlatformState CRG.Module_)
    (clk_name : string) (rst_name : option string) (period : option Z)
    (rst_invert : bool) (p0 : CRG.PlatformState) :
  CRG_SE SimpleCRG clk_name rst_name period rst_invert p0 =
    match SimpleCRG clk_name rst_name rst_invert p0 with
    | (Ok self, p1) =>
        (Ok self,
         CRG.mkPlatformState (CRG.requests p1)
           (CRG.commands p1 ++
              match period with
              | Some p => [(CRG.period_command p, CRG._clk self)]
              | None => []
              end))
    | (Raise e, p1) => (Raise e, p1)
    end.
Proof.
  unfold CRG_SE, CRG._add_period_constraint, CRG.add_platform_command.
  cbn [bind ret ST_monad].
  destruct (SimpleCRG clk_name rst_name rst_invert p0) as [[self|e] p1];
    [| reflexivity].
  destruct period; [reflexivity |].
  rewrite app_nil_r. now destruct p1.
Qed.
